(** * trade_simulator: the account ledger and the day cursor

    A shallow embedding of [main_pyplot_version.py]: the class
    [StockTrader] (the account ledger) and the part of [main] that keeps
    the current day and derives the visible window (the day cursor).

    Numbers.  The ledger computes on Python numbers, and the script
    hands it three kinds of them: Python ints (the amounts and the
    initial capital of [st.number_input]), Python floats (the commission
    rate of the slider) and NumPy float64 scalars (the close prices of
    the data frame).  A float of either kind is an IEEE 754 binary64
    value, here a [spec_float] of the Standard Library with precision 53
    and [emax] 1024; its operations round to nearest even and produce
    infinities and NaN as the machine does.  An int is a [Z].  Mixed
    operations convert the int, which raises [OverflowError] when the
    int is too large for a float; a division by zero raises
    [ZeroDivisionError] between Python numbers and returns an infinity
    or NaN as soon as one operand is a NumPy scalar.  A Python float is
    compared with an int exactly; NumPy converts the int first.  Prices
    are floats, as the [close] column is; capital and commission rate
    may be ints or floats.

    Objects.  A [StockTrader] instance is a record; a method takes the
    record and returns what the call returned or raised, next to the
    record after the call.  The two histories are Python lists of dicts
    with fixed keys, here lists of records; [list.append] is [++ [_]]. *)

From Stdlib Require Import ZArith Lia.
From Stdlib Require Import Floats.SpecFloat.
From stdpp Require Import base numbers strings option list.

(** ** Python numbers *)

Module Py.

Definition prec : Z := 53.
Definition emax : Z := 1024.

Definition fadd := SFadd prec emax.
Definition fsub := SFsub prec emax.
Definition fmul := SFmul prec emax.
Definition fdiv := SFdiv prec emax.

(** The exceptions of the arithmetic. *)
Inductive exn := OverflowError | ZeroDivisionError.

(** What evaluating an expression or calling a method gives: a value, or
    an exception. *)
Inductive result (A : Type) := Ok (a : A) | Raise (e : exn).
Arguments Ok {A} a.
Arguments Raise {A} e.

#[global] Instance result_ret : MRet result := λ A a, Ok a.
#[global] Instance result_bind : MBind result := λ A B f m,
  match m with Ok a => f a | Raise e => Raise e end.

(** Whose float it is: a Python [float] or a [numpy.float64]. *)
Inductive kind := Python | NumPy.

Record flt := Float { kind_of : kind; value : spec_float }.

Inductive num := Int (n : Z) | Flt (x : flt).

(** The kind of the result of an operation: NumPy as soon as one operand
    is; an int does not count. *)
Definition join (a b : kind) : kind :=
  match a, b with Python, Python => Python | _, _ => NumPy end.

Definition kind_of_num (a : num) : kind :=
  match a with Int _ => Python | Flt x => kind_of x end.

(** [float(n)]: the nearest double, ties to even; [OverflowError] when
    that is beyond the largest double. *)
Definition float_of_int (n : Z) : result spec_float :=
  match binary_normalize prec emax n 0 false with
  | S754_infinity _ => Raise OverflowError
  | x => Ok x
  end.

Definition to_double (a : num) : result spec_float :=
  match a with Int n => float_of_int n | Flt x => Ok (value x) end.

(** An operation with a float operand: both operands as doubles, then
    the operation on doubles. *)
Definition float_op (op : spec_float → spec_float → spec_float) (a b : num)
    : result num :=
  x ← to_double a;
  y ← to_double b;
  Ok (Flt (Float (join (kind_of_num a) (kind_of_num b)) (op x y))).

(** [a + b], [a - b], [a * b]. *)
Definition add (a b : num) : result num :=
  match a, b with
  | Int m, Int n => Ok (Int (m + n))
  | _, _ => float_op fadd a b
  end.

Definition sub (a b : num) : result num :=
  match a, b with
  | Int m, Int n => Ok (Int (m - n))
  | _, _ => float_op fsub a b
  end.

Definition mul (a b : num) : result num :=
  match a, b with
  | Int m, Int n => Ok (Int (m * n))
  | _, _ => float_op fmul a b
  end.

Definition is_zero (x : spec_float) : bool :=
  match x with S754_zero _ => true | _ => false end.

(** [m / n] on two ints: the quotient rounded once, to the nearest
    double. *)
Definition int_truediv (m n : Z) : result spec_float :=
  if (n =? 0)%Z then Raise ZeroDivisionError
  else
    let negate := xorb (m <? 0)%Z (n <? 0)%Z in
    if (m =? 0)%Z then Ok (S754_zero negate)
    else
      let '(q, e, l) := SFdiv_core_binary prec emax (Z.abs m) 0 (Z.abs n) 0 in
      match binary_round_aux prec emax negate q e l with
      | S754_infinity _ => Raise OverflowError
      | x => Ok x
      end.

(** [a / b].  The operands are converted first; then Python raises on a
    zero divisor, and NumPy divides. *)
Definition truediv (a b : num) : result num :=
  match a, b with
  | Int m, Int n => x ← int_truediv m n; Ok (Flt (Float Python x))
  | _, _ =>
      x ← to_double a;
      y ← to_double b;
      match join (kind_of_num a) (kind_of_num b) with
      | Python =>
          if is_zero y then Raise ZeroDivisionError
          else Ok (Flt (Float Python (fdiv x y)))
      | NumPy => Ok (Flt (Float NumPy (fdiv x y)))
      end
  end.

(** A Python float against an int: the two values are compared as they
    are, without rounding the int. *)
Definition compare_double_int (x : spec_float) (n : Z) : option comparison :=
  match x with
  | S754_nan => None
  | S754_infinity s => Some (if s then Lt else Gt)
  | S754_zero _ => Some (0 ?= n)%Z
  | S754_finite s m e =>
      let v := cond_Zopp s (Z.pos m) in
      Some (if (0 <=? e)%Z then (v * 2 ^ e ?= n)%Z else (v ?= n * 2 ^ (- e))%Z)
  end.

(** How [a] stands to [b]; [None] when one of them is NaN.  NumPy
    converts an int operand before it compares. *)
Definition compare (a b : num) : result (option comparison) :=
  match a, b with
  | Int m, Int n => Ok (Some (m ?= n)%Z)
  | Flt x, Int n =>
      match kind_of x with
      | Python => Ok (compare_double_int (value x) n)
      | NumPy => y ← float_of_int n; Ok (SFcompare (value x) y)
      end
  | Int m, Flt y =>
      match kind_of y with
      | Python => Ok (CompOpp <$> compare_double_int (value y) m)
      | NumPy => x ← float_of_int m; Ok (SFcompare x (value y))
      end
  | Flt x, Flt y => Ok (SFcompare (value x) (value y))
  end.

(** [a > b] and [a <= b]. *)
Definition gt (a b : num) : result bool :=
  c ← compare a b;
  Ok (match c with Some Gt => true | _ => false end).

Definition le (a b : num) : result bool :=
  c ← compare a b;
  Ok (match c with Some Lt | Some Eq => true | _ => false end).

(** Doubles that are numbers, and well-formed doubles: the mantissa and
    exponent of a binary64 value. *)
Definition is_finite (x : spec_float) : bool :=
  match x with S754_zero _ | S754_finite _ _ _ => true | _ => false end.


(** The double of an int that is one, for writing prices. *)
Definition exact (n : Z) : spec_float := binary_normalize prec emax n 0 false.

End Py.

Arguments Py.float_of_int : simpl never.
Arguments Py.fadd : simpl never.
Arguments Py.fsub : simpl never.
Arguments Py.fmul : simpl never.
Arguments Py.fdiv : simpl never.

Abbreviation Ok := Py.Ok.
Abbreviation Raise := Py.Raise.
Abbreviation Int := Py.Int.
Abbreviation Flt := Py.Flt.
Abbreviation Float := Py.Float.

(** ** The ledger: class [StockTrader] *)

(** The dict appended to [trade_history].  The last key is named
    ['total_cost'] in the dict of a buy and ['total_income'] in the dict
    of a sell. *)
Record trade := Trade {
  t_date : string;
  t_type : string;
  t_stock_code : string;
  t_price : Py.flt;
  t_amount : Z;
  t_total : Py.num
}.

(** The dict appended to [daily_state]. *)
Record snapshot := Snapshot {
  d_date : string;
  d_price : Py.flt;
  d_capital : Py.num;
  d_shares : Z;
  d_portfolio_value : Py.num;
  d_daily_return : Py.num;
  d_cumulative_return : Py.num
}.

Record StockTrader := Trader {
  initial_capital : Py.num;
  capital : Py.num;
  shares : Z;
  commission_rate : Py.num;
  trade_history : list trade;
  daily_state : list snapshot
}.

(** The second component of what [buy] and [sell] return.  The two
    failure messages are literals; the success messages are f-strings,
    kept as their template with the values of the holes.  Formatting an
    int below [2 ^ 1024] or a float does not raise. *)
Inductive message :=
| Text (s : string)
| BuyDone (amount : Z) (price : Py.flt) (total_cost : Py.num)
| SellDone (amount : Z) (price : Py.flt) (total_income : Py.num).

Definition type_buy : string := "买入".
Definition type_sell : string := "卖出".
Definition msg_insufficient_fund : message := Text "insufficient fund".
Definition msg_insufficient_shares : message := Text "股票数量不足，卖出失败".

Definition __init__ (initial_capital commission_rate : Py.num) : StockTrader :=
  {| initial_capital := initial_capital;
     capital := initial_capital;
     shares := 0;
     commission_rate := commission_rate;
     trade_history := [];
     daily_state := [] |}.

(** [price * amount * (1 + self.commission_rate)] and
    [price * amount * (1 - self.commission_rate)]. *)
Definition total_cost_of (self : StockTrader) (price : Py.flt) (amount : Z)
    : Py.result Py.num :=
  gross ← Py.mul (Flt price) (Int amount);
  factor ← Py.add (Int 1) (commission_rate self);
  Py.mul gross factor.

Definition total_income_of (self : StockTrader) (price : Py.flt) (amount : Z)
    : Py.result Py.num :=
  gross ← Py.mul (Flt price) (Int amount);
  factor ← Py.sub (Int 1) (commission_rate self);
  Py.mul gross factor.

(** Every exception of [buy] comes before its first assignment, so the
    ledger of a call that raised is the ledger before the call; the same
    holds for [sell] and [record_daily_state]. *)
Definition buy (self : StockTrader) (date : string) (price : Py.flt) (amount : Z)
    (stock_code : string) : Py.result (bool * message) * StockTrader :=
  match total_cost_of self price amount with
  | Raise e => (Raise e, self)
  | Ok total_cost =>
      match Py.gt total_cost (capital self) with
      | Raise e => (Raise e, self)
      | Ok true => (Ok (false, msg_insufficient_fund), self)
      | Ok false =>
          match Py.sub (capital self) total_cost with
          | Raise e => (Raise e, self)
          | Ok capital' =>
              (Ok (true, BuyDone amount price total_cost),
               {| initial_capital := initial_capital self;
                  capital := capital';
                  shares := (shares self + amount)%Z;
                  commission_rate := commission_rate self;
                  trade_history :=
                    trade_history self ++
                    [ {| t_date := date; t_type := type_buy;
                         t_stock_code := stock_code; t_price := price;
                         t_amount := amount; t_total := total_cost |} ];
                  daily_state := daily_state self |})
          end
      end
  end.

Definition sell (self : StockTrader) (date : string) (price : Py.flt) (amount : Z)
    (stock_code : string) : Py.result (bool * message) * StockTrader :=
  if (amount >? shares self)%Z then
    (Ok (false, msg_insufficient_shares), self)
  else
    match total_income_of self price amount with
    | Raise e => (Raise e, self)
    | Ok total_income =>
        match Py.add (capital self) total_income with
        | Raise e => (Raise e, self)
        | Ok capital' =>
            (Ok (true, SellDone amount price total_income),
             {| initial_capital := initial_capital self;
                capital := capital';
                shares := (shares self - amount)%Z;
                commission_rate := commission_rate self;
                trade_history :=
                  trade_history self ++
                  [ {| t_date := date; t_type := type_sell;
                       t_stock_code := stock_code; t_price := price;
                       t_amount := amount; t_total := total_income |} ];
                daily_state := daily_state self |})
        end
    end.

(** [self.capital + self.shares * price]. *)
Definition portfolio_value_of (self : StockTrader) (price : Py.flt)
    : Py.result Py.num :=
  held ← Py.mul (Int (shares self)) (Flt price);
  Py.add (capital self) held.

(** [(q - 1) * 100]. *)
Definition percent (q : Py.num) : Py.result Py.num :=
  d ← Py.sub q (Int 1);
  Py.mul d (Int 100).

(** [record_daily_state] evaluates, in this order, the portfolio value,
    the daily return and the cumulative return, and only then appends. *)
Definition daily_return_of (self : StockTrader) (price : Py.flt)
    : Py.result Py.num :=
  match last (daily_state self) with
  | None => Ok (Int 0)
  | Some prev =>
      q ← Py.truediv (Flt price) (Flt (d_price prev));
      percent q
  end.

Definition cumulative_return_of (self : StockTrader) (portfolio_value : Py.num)
    : Py.result Py.num :=
  q ← Py.truediv portfolio_value (initial_capital self);
  percent q.

Definition record_daily_state (self : StockTrader) (date : string)
    (price : Py.flt) : Py.result (Py.num * Py.num) * StockTrader :=
  match portfolio_value_of self price with
  | Raise e => (Raise e, self)
  | Ok portfolio_value =>
      match daily_return_of self price with
      | Raise e => (Raise e, self)
      | Ok daily_return =>
          match cumulative_return_of self portfolio_value with
          | Raise e => (Raise e, self)
          | Ok cumulative_return =>
              (Ok (daily_return, cumulative_return),
               {| initial_capital := initial_capital self;
                  capital := capital self;
                  shares := shares self;
                  commission_rate := commission_rate self;
                  trade_history := trade_history self;
                  daily_state :=
                    daily_state self ++
                    [ {| d_date := date; d_price := price;
                         d_capital := capital self; d_shares := shares self;
                         d_portfolio_value := portfolio_value;
                         d_daily_return := daily_return;
                         d_cumulative_return := cumulative_return |} ] |})
          end
      end
  end.

Definition get_current_portfolio_value (self : StockTrader)
    (current_price : Py.flt) : Py.result Py.num :=
  portfolio_value_of self current_price.

Definition has_buy_transaction (self : StockTrader) : bool :=
  existsb (fun t => bool_decide (t_type t = type_buy)) (trade_history self).

(** *** Sequences of ledger calls

    The caller holds one [StockTrader] object and calls its methods one
    after the other, whether a call returns or raises. *)
Inductive ledger_call :=
| CallBuy (date : string) (price : Py.flt) (amount : Z) (stock_code : string)
| CallSell (date : string) (price : Py.flt) (amount : Z) (stock_code : string)
| CallRecord (date : string) (price : Py.flt).

Definition call (self : StockTrader) (c : ledger_call) : StockTrader :=
  match c with
  | CallBuy date price amount stock_code =>
      (buy self date price amount stock_code).2
  | CallSell date price amount stock_code =>
      (sell self date price amount stock_code).2
  | CallRecord date price =>
      (record_daily_state self date price).2
  end.

Definition calls (self : StockTrader) (cs : list ledger_call) : StockTrader :=
  foldl call self cs.

(** The dates handed to the calls of [record_daily_state] that return,
    in call order. *)
Fixpoint recorded_dates (self : StockTrader) (cs : list ledger_call)
    : list string :=
  match cs with
  | [] => []
  | c :: cs' =>
      match c with
      | CallRecord date price =>
          match (record_daily_state self date price).1 with
          | Ok _ => [date]
          | Raise _ => []
          end
      | _ => []
      end ++ recorded_dates (call self c) cs'
  end.

(** ** The day cursor: [main]

    [st.session_state.current_day] survives from one run of the script
    to the next; [total_days] is [len(stock_data)] of the run.  Each run
    derives its local [current_day], [start_idx] and [end_idx] from the
    stored value, then serves the button that caused the run. *)

Section Cursor.
Local Open Scope Z_scope.

(** The value given to [st.session_state.current_day] when the key is
    not there yet. *)
Definition initial_current_day (total_days : Z) : Z :=
  Z.min 499 (total_days - 1).

(** The value the button "重置模拟器" stores. *)
Definition reset_current_day : Z := 499.

Record window := Window {
  current_day : Z;
  start_idx : Z;
  end_idx : Z
}.

(** From "获取当前日期索引并确保不超出范围" to "当数据不足500条时，显示全部数据". *)
Definition visible_window (total_days session_current_day : Z) : window :=
  let current_day := session_current_day in
  let current_day := Z.min current_day (total_days - 1) in
  let current_day := Z.max current_day 499 in
  let start_idx := current_day - 499 in
  let end_idx := current_day + 1 in
  let start_idx := Z.max 0 start_idx in
  let end_idx := Z.min end_idx total_days in
  if (total_days <? 500)%Z then
    {| current_day := total_days - 1; start_idx := 0; end_idx := total_days |}
  else
    {| current_day := current_day; start_idx := start_idx; end_idx := end_idx |}.

(** The three buttons "前进一天", "前进一周" and "前进一月". *)
Inductive button := OneDay | OneWeek | OneMonth.

Definition steps (b : button) : Z :=
  match b with OneDay => 1 | OneWeek => 7 | OneMonth => 30 end.

(** The new [st.session_state.current_day] after a run in which the
    button [b] was pressed.  "前进一天" adds one to the stored value; the
    other two store a value computed from the run's local
    [current_day]. *)
Definition advance (total_days session_current_day : Z) (b : button) : Z :=
  let current_day := current_day (visible_window total_days session_current_day) in
  match b with
  | OneDay =>
      if (current_day <? total_days - 1)%Z then session_current_day + 1
      else session_current_day
  | OneWeek =>
      let new_day := current_day + 7 in
      if (new_day <? total_days)%Z then new_day else total_days - 1
  | OneMonth =>
      let new_day := current_day + 30 in
      if (new_day <? total_days)%Z then new_day else total_days - 1
  end.

(** The states of the stored index that a session over one series of
    [total_days] bars goes through. *)
Inductive reachable (total_days : Z) : Z → Prop :=
| reachable_initial : reachable total_days (initial_current_day total_days)
| reachable_reset : reachable total_days reset_current_day
| reachable_advance cd b :
    reachable total_days cd → reachable total_days (advance total_days cd b).

(** "记录每日状态": what a run records, given the rows of [stock_data] as
    pairs of the formatted [trade_date] and [close], a NumPy float.  The guard
    [current_day < total_days] of the source is the bounds check of the
    lookup. *)
Definition record_run (stock_data : list (string * Py.flt)) (session_current_day : Z)
    (trader : StockTrader) : StockTrader :=
  let total_days := Z.of_nat (length stock_data) in
  let w := visible_window total_days session_current_day in
  if (current_day w <? total_days)%Z then
    match stock_data !! Z.to_nat (current_day w) with
    | Some (current_date, current_price) =>
        call trader (CallRecord current_date current_price)
    | None => trader
    end
  else trader.

End Cursor.

(** The stored index after the buttons [bs], pressed one run after the
    other, and the days they ask for together. *)
Definition advances (total_days session_current_day : Z) (bs : list button) : Z :=
  foldl (advance total_days) session_current_day bs.

Definition total_steps (bs : list button) : Z :=
  foldr (λ b acc, (steps b + acc)%Z) 0%Z bs.

(** Splits the tests of [visible_window] and [advance] and leaves linear
    arithmetic. *)
Ltac cursor_cases :=
  unfold advance, visible_window, steps, initial_current_day,
    reset_current_day in *;
  try match goal with b : button |- _ => destruct b end;
  try match goal with
      | |- context [Z.ltb ?n 500] => destruct (Z.ltb_spec n 500)
      end;
  cbn [current_day start_idx end_idx] in *;
  repeat match goal with
         | |- context [Z.ltb ?x ?y] => destruct (Z.ltb_spec x y)
         end;
  try lia.


(** ** The trade form of [main]: "交易决策" *)

(** The radio "交易动作": "买入", "卖出", "持有". *)
Inductive action := ActionBuy | ActionSell | ActionHold.

(** The button "执行交易".  The session keeps the trader and the flag
    [buy_executed]; a buy that succeeds sets the flag.  When the call
    raises, the run ends there and the session is as it was. *)
Definition execute_trade (trader : StockTrader) (buy_executed : bool)
    (act : action) (current_date : string) (current_price : Py.flt) (amount : Z)
    (selected_stock : string) : StockTrader * bool :=
  match act with
  | ActionHold => (trader, buy_executed)
  | ActionBuy =>
      match buy trader current_date current_price amount selected_stock with
      | (Ok (success, message), trader') =>
          (trader', if success then true else buy_executed)
      | (Raise e, trader') => (trader', buy_executed)
      end
  | ActionSell =>
      match sell trader current_date current_price amount selected_stock with
      | (Ok (success, message), trader') => (trader', buy_executed)
      | (Raise e, trader') => (trader', buy_executed)
      end
  end.

(** ** Reading the results and the trade history *)

(** The flag of a call of [buy] or [sell]; a call that raised has
    none. *)
Definition succeeded (r : Py.result (bool * message)) : bool :=
  match r with Ok (flag, _) => flag | Raise _ => false end.

Definition refused (r : Py.result (bool * message)) : bool :=
  match r with Ok (flag, _) => negb flag | Raise _ => false end.

(** What a trade record says about the shares: a buy added its
    ['amount'], a sell took it away. *)
Definition is_buy (t : trade) : bool := bool_decide (t_type t = type_buy).

Definition share_delta (t : trade) : Z :=
  if is_buy t then t_amount t else (- t_amount t)%Z.

Definition total_share_delta (ts : list trade) : Z :=
  foldr (λ t acc, (share_delta t + acc)%Z) 0%Z ts.

(** A call that is a trade, and one that does not buy a negative
    amount. *)
Definition is_trade_call (c : ledger_call) : bool :=
  match c with CallRecord _ _ => false | _ => true end.

Definition plain_call (c : ledger_call) : Prop :=
  match c with
  | CallBuy _ _ amount _ => (0 ≤ amount)%Z
  | _ => True
  end.

(** A snapshot whose derived fields are what the ledger's arithmetic
    gives on its own price, capital and shares and on the initial
    capital. *)
Definition snapshot_coherent (funds : Py.num) (d : snapshot) : Prop :=
  (held ← Py.mul (Int (d_shares d)) (Flt (d_price d));
   Py.add (d_capital d) held) = Ok (d_portfolio_value d) ∧
  (q ← Py.truediv (d_portfolio_value d) funds; percent q)
    = Ok (d_cumulative_return d).

(** Numbers that are not below zero: [0 <= a] is [True]. *)
Definition nonnegative (a : Py.num) : Prop := Py.le (Int 0) a = Ok true.

(** Doubles that are zero or above it. *)
Definition nonneg_double (z : spec_float) : bool :=
  match z with
  | S754_zero _ | S754_infinity false | S754_finite false _ _ => true
  | _ => false
  end.

(** A double that is not NaN and has the sign [s]. *)
Definition signed (s : bool) (z : spec_float) : Prop :=
  match z with
  | S754_zero s' | S754_infinity s' | S754_finite s' _ _ => s' = s
  | S754_nan => False
  end.

(** Numbers that have a double: every float, and the ints that
    [float] converts. *)
Definition fits (a : Py.num) : bool :=
  match Py.to_double a with Ok _ => true | Raise _ => false end.

(** Results that are a number with a finite double. *)
Definition finite_result (r : Py.result Py.num) : bool :=
  match r with
  | Ok a =>
      match Py.to_double a with Ok x => Py.is_finite x | Raise _ => false end
  | Raise _ => false
  end.

(** A division whose divisor is a zero and that no NumPy operand takes
    over: the case in which [/] raises [ZeroDivisionError]. *)
Definition python_zero_division (a b : Py.num) : bool :=
  match Py.join (Py.kind_of_num a) (Py.kind_of_num b), Py.to_double b with
  | Py.Python, Ok y => Py.is_zero y
  | _, _ => false
  end.

(** What the trade history says about the cash: from the initial
    capital, the ['total_cost'] of each buy taken away and the
    ['total_income'] of each sell added, in the order of the records
    and in the ledger's arithmetic. *)
Definition apply_trade (cash : Py.num) (t : trade) : Py.result Py.num :=
  if is_buy t then Py.sub cash (t_total t) else Py.add cash (t_total t).

Definition cash_after (funds : Py.num) (ts : list trade) : Py.result Py.num :=
  foldl (λ acc t, cash ← acc; apply_trade cash t) (Ok funds) ts.

(** ** Sample sessions *)

(** The doubles nearest to 0.0001, 0.0003 and 0.0012, and 2.5. *)
Definition double_0_0001 : spec_float := S754_finite false 7378697629483821 (-66).
Definition double_0_0003 : spec_float := S754_finite false 5534023222112865 (-64).
Definition double_0_0012 : spec_float := S754_finite false 5534023222112865 (-62).
Definition double_2_5 : spec_float := S754_finite false 5629499534213120 (-51).

(** A close price of the data frame, and a Python float. *)
Definition np (n : Z) : Py.flt := Float Py.NumPy (Py.exact n).
Definition py (n : Z) : Py.flt := Float Py.Python (Py.exact n).

Definition three_basis_points : Py.num := Flt (Float Py.Python double_0_0003).

Definition fresh_trader : StockTrader :=
  __init__ (Int 100000) three_basis_points.

(** A trader holding 1000 shares bought at 10. *)
Definition invested_trader : StockTrader :=
  (buy fresh_trader "2024-01-02" (np 10) 1000 "000001").2.

(** A trader who started with 100 in cash and sold -1000 shares at 10. *)
Definition overdrawn_trader : StockTrader :=
  (sell (__init__ (Int 100) three_basis_points)
        "2024-01-02" (np 10) (-1000) "000001").2.

(** A trader with one snapshot, taken at price 10. *)
Definition observed_trader : StockTrader :=
  call fresh_trader (CallRecord "2024-01-02" (np 10)).


(** A trader whose last snapshot was taken at the Python float 0.0. *)
Definition zero_priced_trader : StockTrader :=
  call fresh_trader (CallRecord "2024-01-02" (py 0)).

(** The smallest double above zero, as a Python float. *)
Definition double_5e_324 : Py.flt := Float Py.Python (S754_finite false 1 (-1074)).

(** A trader holding [2 ^ 1024] shares, bought in two halves at
    5e-324. *)
Definition hoard_trader : StockTrader :=
  calls fresh_trader
    [CallBuy "2024-01-02" double_5e_324 (2 ^ 1023) "000001";
     CallBuy "2024-01-03" double_5e_324 (2 ^ 1023) "000001"].

(** A trader whose initial capital is an int beyond the doubles. *)
Definition giant_trader : StockTrader :=
  __init__ (Int (2 ^ 1024)) three_basis_points.

(** A series of two bars. *)
Definition two_bars : list (string * Py.flt) :=
  [("2024-01-02", np 10); ("2024-01-03", np 11)].


(** * Facts about doubles *)

Section DoubleFacts.
Local Open Scope Z_scope.

Lemma iter_pos_keeps {A} (P : A → Prop) (f : A → A) :
  (∀ x, P x → P (f x)) → ∀ p x, P x → P (SpecFloat.iter_pos f p x).
Proof.
  intros Hf p. induction p as [p IH | p IH |]; intros x Hx; cbn; auto.
Qed.

Lemma shr_1_nonneg mrs : 0 ≤ shr_m mrs → 0 ≤ shr_m (shr_1 mrs).
Proof.
  destruct mrs as [m r s]. cbn.
  destruct m as [|[p|p|]|[p|p|]]; cbn; lia.
Qed.

Lemma shr_nonneg mrs e n : 0 ≤ shr_m mrs → 0 ≤ shr_m (shr mrs e n).1.
Proof.
  intros H. unfold shr. destruct n; cbn; [done | | done].
  by apply (iter_pos_keeps (λ x, 0 ≤ shr_m x)); [apply shr_1_nonneg |].
Qed.

Lemma shr_fexp_nonneg m e l :
  0 ≤ m → 0 ≤ shr_m (shr_fexp Py.prec Py.emax m e l).1.
Proof.
  intros H. unfold shr_fexp. apply shr_nonneg.
  by destruct l as [|[]].
Qed.

Lemma round_nearest_even_nonneg m l : 0 ≤ m → 0 ≤ round_nearest_even m l.
Proof.
  intros H. unfold round_nearest_even.
  destruct l as [|[]]; try destruct (Z.even m); lia.
Qed.

(** Rounding keeps the sign it is given. *)
Lemma binary_round_aux_signed s m e l :
  0 ≤ m → signed s (binary_round_aux Py.prec Py.emax s m e l).
Proof.
  intros H. unfold binary_round_aux.
  pose proof (shr_fexp_nonneg m e l H) as H1.
  destruct (shr_fexp Py.prec Py.emax m e l) as [mrs' e'].
  pose proof (shr_fexp_nonneg
                (round_nearest_even (shr_m mrs') (loc_of_shr_record mrs'))
                e' loc_Exact
                (round_nearest_even_nonneg _ _ H1)) as H2.
  destruct (shr_fexp Py.prec Py.emax _ e' loc_Exact) as [mrs'' e''].
  cbn in H2. destruct (shr_m mrs'') as [|p|p]; [done | | lia].
  by destruct (e'' <=? _).
Qed.

Lemma binary_round_signed s m e :
  signed s (binary_round Py.prec Py.emax s m e).
Proof.
  unfold binary_round. destruct (shl_align _ _ _) as [mz ez].
  by apply binary_round_aux_signed.
Qed.

Lemma signed_nonneg z : signed false z → nonneg_double z = true.
Proof. by destruct z as [[]|[]| |[] ? ?]. Qed.

Lemma binary_normalize_nonneg n e :
  0 ≤ n → nonneg_double (binary_normalize Py.prec Py.emax n e false) = true.
Proof.
  intros H. destruct n as [|p|p]; [done | | lia].
  apply signed_nonneg, binary_round_signed.
Qed.

(** The double of an int that is not negative is not negative. *)
Lemma float_of_int_nonneg n y :
  0 ≤ n → Py.float_of_int n = Ok y → nonneg_double y = true.
Proof.
  intros H. unfold Py.float_of_int.
  pose proof (binary_normalize_nonneg n 0 H) as Hn.
  destruct (binary_normalize Py.prec Py.emax n 0 false) as [| | |];
    intros [= <-]; done.
Qed.

(** *** Mantissas *)

Lemma digits2_pos_bounds m :
  2 ^ (Z.pos (digits2_pos m) - 1) ≤ Z.pos m < 2 ^ Z.pos (digits2_pos m).
Proof.
  induction m as [m IH | m IH |]; cbn [digits2_pos].
  - rewrite Pos2Z.inj_succ, Z.pow_succ_r by lia.
    replace (Z.succ (Z.pos (digits2_pos m)) - 1) with
      (Z.succ (Z.pos (digits2_pos m) - 1)) by lia.
    rewrite Z.pow_succ_r by lia. lia.
  - rewrite Pos2Z.inj_succ, Z.pow_succ_r by lia.
    replace (Z.succ (Z.pos (digits2_pos m)) - 1) with
      (Z.succ (Z.pos (digits2_pos m) - 1)) by lia.
    rewrite Z.pow_succ_r by lia. lia.
  - cbn. lia.
Qed.







(** *** The double of an int *)

Lemma shr_record_of_loc_m m l : shr_m (shr_record_of_loc m l) = m.
Proof. by destruct l as [|[]]. Qed.

Lemma shr_1_halves mrs : 0 ≤ shr_m mrs → shr_m (shr_1 mrs) = shr_m mrs / 2.
Proof.
  destruct mrs as [m r s]. cbn [shr_m]. intros H.
  rewrite <- Z.div2_div.
  destruct m as [|[p|p|]|p]; cbn; [done | done | done | done | lia].
Qed.

Lemma iter_shr_1_value p : ∀ mrs,
  0 ≤ shr_m mrs →
  shr_m (SpecFloat.iter_pos shr_1 p mrs) = shr_m mrs / 2 ^ Z.pos p.
Proof.
  assert (∀ m k, 0 ≤ m → 0 ≤ m / 2 ^ Z.pos k) as Hdiv.
  { intros m k Hm. apply Z.div_pos; [done |]. by apply Z.pow_pos_nonneg. }
  induction p as [p IH | p IH |]; intros mrs H; cbn [SpecFloat.iter_pos].
  - assert (0 ≤ shr_m (shr_1 mrs)) as H1 by by apply shr_1_nonneg.
    rewrite IH, IH, shr_1_halves by (rewrite ?IH; auto).
    rewrite !Z.div_div by (pose proof (Z.pow_pos_nonneg 2 (Z.pos p)); lia).
    f_equal. replace (Z.pos p~1) with (1 + Z.pos p + Z.pos p) by lia.
    rewrite !Z.pow_add_r, Z.pow_1_r by lia. lia.
  - rewrite IH, IH by (rewrite ?IH; auto).
    rewrite !Z.div_div by (pose proof (Z.pow_pos_nonneg 2 (Z.pos p)); lia).
    f_equal. replace (Z.pos p~0) with (Z.pos p + Z.pos p) by lia.
    by rewrite Z.pow_add_r by lia.
  - by rewrite shr_1_halves, Z.pow_1_r.
Qed.

(** Shifting a mantissa into the format leaves something of it, as long
    as the exponent is not below the smallest one. *)
Lemma shr_fexp_pos m e l :
  0 < m → -1074 ≤ e →
  0 < shr_m (shr_fexp Py.prec Py.emax m e l).1 ∧
  -1074 ≤ (shr_fexp Py.prec Py.emax m e l).2.
Proof.
  intros Hm He. destruct m as [|p|p]; [lia | | lia].
  unfold shr_fexp, shr, fexp, emin, Py.prec, Py.emax. cbn [Zdigits2].
  pose proof (digits2_pos_bounds p) as [Hlow _].
  destruct (Z.max (Z.pos (digits2_pos p) + e - 53) (3 - 1024 - 53) - e)
    as [|n|n] eqn:Hn; cbn [fst snd]; rewrite ?shr_record_of_loc_m; try lia.
  rewrite iter_shr_1_value by (rewrite shr_record_of_loc_m; lia).
  rewrite shr_record_of_loc_m. split; [| lia].
  apply Z.div_str_pos. split; [by apply Z.pow_pos_nonneg |].
  etrans; [| exact Hlow]. apply Z.pow_le_mono_r; lia.
Qed.

Lemma round_nearest_even_pos m l : 0 < m → 0 < round_nearest_even m l.
Proof.
  intros H. unfold round_nearest_even.
  destruct l as [|[]]; try destruct (Z.even m); lia.
Qed.

Lemma binary_round_aux_nonzero s m e l :
  0 < m → -1074 ≤ e →
  Py.is_zero (binary_round_aux Py.prec Py.emax s m e l) = false.
Proof.
  intros Hm He. unfold binary_round_aux.
  destruct (shr_fexp_pos m e l Hm He) as [H1 He1].
  destruct (shr_fexp Py.prec Py.emax m e l) as [mrs' e'].
  cbn [fst snd] in H1, He1.
  destruct (shr_fexp_pos
              (round_nearest_even (shr_m mrs') (loc_of_shr_record mrs'))
              e' loc_Exact (round_nearest_even_pos _ _ H1) He1) as [H2 _].
  destruct (shr_fexp Py.prec Py.emax _ e' loc_Exact) as [mrs'' e''].
  cbn [fst] in H2. destruct (shr_m mrs'') as [|p|p]; [lia | | done].
  by destruct (e'' <=? _).
Qed.

Lemma binary_round_int_nonzero s m :
  Py.is_zero (binary_round Py.prec Py.emax s m 0) = false.
Proof.
  unfold binary_round, shl_align.
  destruct (fexp Py.prec Py.emax (Z.pos (digits2_pos m) + 0) - 0)
    as [|d|d] eqn:Hd.
  - by apply binary_round_aux_nonzero.
  - by apply binary_round_aux_nonzero.
  - apply binary_round_aux_nonzero; [done |].
    unfold fexp, emin, Py.prec, Py.emax in *. lia.
Qed.

(** The double of an int other than zero is not a zero. *)
Lemma float_of_int_nonzero n y :
  n ≠ 0 → Py.float_of_int n = Ok y → Py.is_zero y = false.
Proof.
  intros Hn. unfold Py.float_of_int.
  assert (Py.is_zero (binary_normalize Py.prec Py.emax n 0 false) = false)
    as Hnz.
  { destruct n as [|p|p]; [done | |]; apply binary_round_int_nonzero. }
  destruct (binary_normalize Py.prec Py.emax n 0 false); intros [= <-]; done.
Qed.

Lemma float_of_int_raises n e :
  Py.float_of_int n = Raise e → e = Py.OverflowError.
Proof.
  unfold Py.float_of_int.
  destruct (binary_normalize Py.prec Py.emax n 0 false); congruence.
Qed.

(** *** Exceptions of the arithmetic *)

Lemma to_double_raises a e :
  Py.to_double a = Raise e → e = Py.OverflowError ∧ fits a = false.
Proof.
  intros H. unfold fits. rewrite H. split; [| done].
  destruct a as [n|x]; [by apply float_of_int_raises in H | done].
Qed.

Lemma fits_Ok a : fits a = true → ∃ x, Py.to_double a = Ok x.
Proof. unfold fits. destruct (Py.to_double a) as [x|]; [by exists x | done]. Qed.

Lemma float_op_raises op a b e :
  Py.float_op op a b = Raise e →
  e = Py.OverflowError ∧ (fits a = false ∨ fits b = false).
Proof.
  unfold Py.float_op.
  destruct (Py.to_double a) as [x|e1] eqn:Ha; cbn.
  - destruct (Py.to_double b) as [y|e2] eqn:Hb; cbn; [done |].
    intros [= <-]. apply to_double_raises in Hb as [-> Hb]. auto.
  - intros [= <-]. apply to_double_raises in Ha as [-> Ha]. auto.
Qed.

Lemma float_op_Ok op a b x y :
  Py.to_double a = Ok x → Py.to_double b = Ok y →
  Py.float_op op a b =
    Ok (Flt (Float (Py.join (Py.kind_of_num a) (Py.kind_of_num b)) (op x y))).
Proof. intros Ha Hb. unfold Py.float_op. by rewrite Ha, Hb. Qed.

Lemma add_raises a b e :
  Py.add a b = Raise e →
  e = Py.OverflowError ∧ (fits a = false ∨ fits b = false).
Proof. destruct a, b; try done; apply float_op_raises. Qed.

Lemma sub_raises a b e :
  Py.sub a b = Raise e →
  e = Py.OverflowError ∧ (fits a = false ∨ fits b = false).
Proof. destruct a, b; try done; apply float_op_raises. Qed.

Lemma mul_raises a b e :
  Py.mul a b = Raise e →
  e = Py.OverflowError ∧ (fits a = false ∨ fits b = false).
Proof. destruct a, b; try done; apply float_op_raises. Qed.

(** An operation with a float operand gives a float, when both operands
    have a double. *)
Lemma sub_float a b :
  (∃ x, a = Flt x) ∨ (∃ y, b = Flt y) → fits a = true → fits b = true →
  ∃ z, Py.sub a b = Ok (Flt z).
Proof.
  intros Hfloat [x Ha]%fits_Ok [y Hb]%fits_Ok.
  assert (Py.sub a b = Py.float_op Py.fsub a b) as ->.
  { destruct Hfloat as [[? ->] | [? ->]]; [done | by destruct a]. }
  rewrite (float_op_Ok _ _ _ _ _ Ha Hb). eauto.
Qed.

Lemma mul_float a b :
  (∃ x, a = Flt x) ∨ (∃ y, b = Flt y) → fits a = true → fits b = true →
  ∃ z, Py.mul a b = Ok (Flt z).
Proof.
  intros Hfloat [x Ha]%fits_Ok [y Hb]%fits_Ok.
  assert (Py.mul a b = Py.float_op Py.fmul a b) as ->.
  { destruct Hfloat as [[? ->] | [? ->]]; [done | by destruct a]. }
  rewrite (float_op_Ok _ _ _ _ _ Ha Hb). eauto.
Qed.

(** [(q - 1) * 100] of a float is a float. *)
Lemma percent_float q : ∃ z, percent (Flt q) = Ok (Flt z).
Proof. unfold percent. cbn. eauto. Qed.

(** *** Comparisons *)


Lemma SFcompare_refl x : x ≠ S754_nan → SFcompare x x = Some Eq.
Proof.
  destruct x as [s|[]| |[] m e]; try done; intros _; cbn;
    by rewrite Z.compare_refl, Pos.compare_cont_refl.
Qed.

(** A number that is not below zero has a double that is not below
    zero. *)
Lemma nonnegative_double a x :
  nonnegative a → Py.to_double a = Ok x → nonneg_double x = true.
Proof.
  unfold nonnegative, Py.le. destruct a as [n|[k z]]; cbn.
  - intros Hle Hx. apply (float_of_int_nonneg n); [| done].
    by destruct n.
  - intros Hle [= <-]. destruct k; cbn in Hle.
    + destruct z as [s|[]| |[] m e]; try done. cbn in Hle.
      destruct (Z.leb_spec 0 e); cbn in Hle.
      * assert (- Z.pos m * 2 ^ e < 0) as Hneg.
        { apply Z.mul_neg_pos; [lia |]. apply Z.pow_pos_nonneg; lia. }
        apply Z.compare_lt_iff in Hneg. by rewrite Hneg in Hle.
      * done.
    + by destruct z as [s|[]| |[] m e].
Qed.


(** A number above zero has a double that is not a zero. *)
Lemma positive_nonzero a y :
  Py.gt a (Int 0) = Ok true → Py.to_double a = Ok y → Py.is_zero y = false.
Proof.
  unfold Py.gt, Py.compare. destruct a as [n|[k z]]; cbn [Py.to_double].
  - intros Hgt Hy. apply (float_of_int_nonzero n); [| done].
    intros ->. done.
  - intros Hgt [= <-]. destruct z as [s| | |]; try done.
    destruct k; cbn in Hgt; [done |].
    change (Py.float_of_int 0) with (Ok (A:=spec_float) (S754_zero false)) in Hgt.
    done.
Qed.

(** *** What the operations return *)

Lemma float_op_inv op a b r :
  Py.float_op op a b = Ok r →
  ∃ x y, Py.to_double a = Ok x ∧ Py.to_double b = Ok y ∧
         r = Flt (Float (Py.join (Py.kind_of_num a) (Py.kind_of_num b)) (op x y)).
Proof.
  unfold Py.float_op.
  destruct (Py.to_double a) as [x|]; cbn; [| done].
  destruct (Py.to_double b) as [y|]; cbn; [| done].
  intros [= <-]. by exists x, y.
Qed.

Lemma add_inv a b r :
  (∃ x, a = Flt x) ∨ (∃ y, b = Flt y) → Py.add a b = Ok r →
  ∃ x y, Py.to_double a = Ok x ∧ Py.to_double b = Ok y ∧
         r = Flt (Float (Py.join (Py.kind_of_num a) (Py.kind_of_num b))
                        (Py.fadd x y)).
Proof.
  intros Hfloat H. apply float_op_inv. rewrite <- H.
  destruct Hfloat as [[? ->] | [? ->]]; [done | by destruct a].
Qed.

Lemma sub_inv a b r :
  (∃ x, a = Flt x) ∨ (∃ y, b = Flt y) → Py.sub a b = Ok r →
  ∃ x y, Py.to_double a = Ok x ∧ Py.to_double b = Ok y ∧
         r = Flt (Float (Py.join (Py.kind_of_num a) (Py.kind_of_num b))
                        (Py.fsub x y)).
Proof.
  intros Hfloat H. apply float_op_inv. rewrite <- H.
  destruct Hfloat as [[? ->] | [? ->]]; [done | by destruct a].
Qed.

Lemma mul_inv a b r :
  (∃ x, a = Flt x) ∨ (∃ y, b = Flt y) → Py.mul a b = Ok r →
  ∃ x y, Py.to_double a = Ok x ∧ Py.to_double b = Ok y ∧
         r = Flt (Float (Py.join (Py.kind_of_num a) (Py.kind_of_num b))
                        (Py.fmul x y)).
Proof.
  intros Hfloat H. apply float_op_inv. rewrite <- H.
  destruct Hfloat as [[? ->] | [? ->]]; [done | by destruct a].
Qed.

Lemma join_Python k : Py.join Py.Python k = k.
Proof. by destruct k. Qed.

Lemma join_NumPy_r k : Py.join k Py.NumPy = Py.NumPy.
Proof. by destruct k. Qed.

(** The outcomes of a division whose dividend is a float. *)
Lemma truediv_float_cases x b :
  match Py.truediv (Flt x) b with
  | Ok q =>
      (∃ z, q = Flt z) ∧ fits b = true ∧
      python_zero_division (Flt x) b = false
  | Raise e =>
      (e = Py.OverflowError ∧ fits b = false) ∨
      (e = Py.ZeroDivisionError ∧ fits b = true ∧
       python_zero_division (Flt x) b = true)
  end.
Proof.
  unfold Py.truediv, python_zero_division, fits. cbn [Py.to_double mbind].
  destruct (Py.to_double b) as [y|e] eqn:Hb; cbn.
  - destruct (Py.join _ _).
    + destruct (Py.is_zero y); [right | ]; eauto.
    + eauto.
  - apply to_double_raises in Hb as [-> _]. by left.
Qed.

End DoubleFacts.
(** * Properties of the ledger *)

Section LedgerFacts.


Lemma buy_accepted self date price amount stock_code total_cost capital' :
  total_cost_of self price amount = Ok total_cost →
  Py.gt total_cost (capital self) = Ok false →
  Py.sub (capital self) total_cost = Ok capital' →
  buy self date price amount stock_code =
    (Ok (true, BuyDone amount price total_cost),
     {| initial_capital := initial_capital self;
        capital := capital';
        shares := (shares self + amount)%Z;
        commission_rate := commission_rate self;
        trade_history :=
          trade_history self ++
          [Trade date type_buy stock_code price amount total_cost];
        daily_state := daily_state self |}).
Proof. intros Hcost Hgt Hsub. unfold buy. by rewrite Hcost, Hgt, Hsub. Qed.

(** Every outcome of [buy] is one of three: the ledger is untouched and
    the call raised or refused, or the buy was made. *)
Lemma buy_cases self date price amount stock_code :
  (∃ e, buy self date price amount stock_code = (Raise e, self)) ∨
  buy self date price amount stock_code
    = (Ok (false, msg_insufficient_fund), self) ∨
  (∃ total_cost capital',
     total_cost_of self price amount = Ok total_cost ∧
     Py.gt total_cost (capital self) = Ok false ∧
     Py.sub (capital self) total_cost = Ok capital' ∧
     buy self date price amount stock_code =
       (Ok (true, BuyDone amount price total_cost),
        {| initial_capital := initial_capital self;
           capital := capital';
           shares := (shares self + amount)%Z;
           commission_rate := commission_rate self;
           trade_history :=
             trade_history self ++
             [Trade date type_buy stock_code price amount total_cost];
           daily_state := daily_state self |})).
Proof.
  unfold buy.
  destruct (total_cost_of self price amount) as [total_cost|e] eqn:Hcost;
    [| left; eauto].
  destruct (Py.gt total_cost (capital self)) as [[|]|e] eqn:Hgt;
    [right; by left | | left; eauto].
  destruct (Py.sub (capital self) total_cost) as [capital'|e] eqn:Hsub;
    [| left; eauto].
  right; right. by exists total_cost, capital'.
Qed.

Lemma sell_rejected self date price amount stock_code :
  (shares self < amount)%Z →
  sell self date price amount stock_code
    = (Ok (false, msg_insufficient_shares), self).
Proof.
  intros H. unfold sell.
  destruct (Z.gtb_spec amount (shares self)) as [_|Hle]; [done | lia].
Qed.

Lemma sell_cases self date price amount stock_code :
  (amount ≤ shares self)%Z →
  (∃ e, sell self date price amount stock_code = (Raise e, self) ∧
        (total_income_of self price amount = Raise e ∨
         ∃ total_income,
           total_income_of self price amount = Ok total_income ∧
           Py.add (capital self) total_income = Raise e)) ∨
  (∃ total_income capital',
     total_income_of self price amount = Ok total_income ∧
     Py.add (capital self) total_income = Ok capital' ∧
     sell self date price amount stock_code =
       (Ok (true, SellDone amount price total_income),
        {| initial_capital := initial_capital self;
           capital := capital';
           shares := (shares self - amount)%Z;
           commission_rate := commission_rate self;
           trade_history :=
             trade_history self ++
             [Trade date type_sell stock_code price amount total_income];
           daily_state := daily_state self |})).
Proof.
  intros H. unfold sell.
  destruct (Z.gtb_spec amount (shares self)) as [Hgt|_]; [lia |].
  destruct (total_income_of self price amount) as [total_income|e] eqn:Hincome;
    [| left; eauto].
  destruct (Py.add (capital self) total_income) as [capital'|e] eqn:Hadd.
  - right. by exists total_income, capital'.
  - left. exists e. split; [done |]. right. by exists total_income.
Qed.

(** What a call of [record_daily_state] that returns has computed and
    appended, and what a call that raises leaves. *)
Lemma record_daily_state_Ok self date price d c self' :
  record_daily_state self date price = (Ok (d, c), self') →
  ∃ portfolio_value,
    portfolio_value_of self price = Ok portfolio_value ∧
    daily_return_of self price = Ok d ∧
    cumulative_return_of self portfolio_value = Ok c ∧
    self' =
      {| initial_capital := initial_capital self;
         capital := capital self;
         shares := shares self;
         commission_rate := commission_rate self;
         trade_history := trade_history self;
         daily_state :=
           daily_state self ++
           [Snapshot date price (capital self) (shares self)
                     portfolio_value d c] |}.
Proof.
  unfold record_daily_state.
  destruct (portfolio_value_of self price) as [pv|] eqn:Hpv; [| done].
  destruct (daily_return_of self price) as [d'|] eqn:Hdaily; [| done].
  destruct (cumulative_return_of self pv) as [c'|] eqn:Hcum; [| done].
  intros [= <- <- <-]. by exists pv.
Qed.

Lemma record_daily_state_Raise self date price e self' :
  record_daily_state self date price = (Raise e, self') →
  self' = self ∧
  (portfolio_value_of self price = Raise e ∨
   (∃ portfolio_value,
      portfolio_value_of self price = Ok portfolio_value ∧
      (daily_return_of self price = Raise e ∨
       (∃ d, daily_return_of self price = Ok d) ∧
       cumulative_return_of self portfolio_value = Raise e))).
Proof.
  unfold record_daily_state.
  destruct (portfolio_value_of self price) as [pv|e1] eqn:Hpv;
    [| intros [= <- <-]; by split; [| left]].
  destruct (daily_return_of self price) as [d|e2] eqn:Hdaily;
    [| intros [= <- <-]; split; [done |]; right; exists pv; by split; [| left]].
  destruct (cumulative_return_of self pv) as [c|e3] eqn:Hcum; [done |].
  intros [= <- <-]. split; [done |]. right. exists pv. split; [done |].
  right. split; [by exists d | done].
Qed.



(** C4.  A sell of more than the shares held is refused: the flag is
    [False], the message is the insufficient-shares one, and the ledger
    (cash, shares, both histories) is the one before the call. *)
Theorem sell_beyond_shares self date price amount stock_code :
  let r := sell self date price amount stock_code in
  (amount > shares self)%Z →
  r.1 = Ok (false, msg_insufficient_shares) ∧
  r.2 = self ∧
  capital r.2 = capital self ∧
  shares r.2 = shares self ∧
  trade_history r.2 = trade_history self ∧
  daily_state r.2 = daily_state self.
Proof.
  intros r H. subst r. rewrite sell_rejected by lia. done.
Qed.

Lemma sell_beyond_shares_witness :
  sell invested_trader "2024-01-03" (np 12) 1001 "000001" =
    (Ok (false, msg_insufficient_shares), invested_trader).
Proof.
  pose proof (sell_beyond_shares invested_trader "2024-01-03" (np 12) 1001 "000001")
    as H.
  cbv zeta in H.
  destruct H as (Hret & Hself & _).
  { vm_compute. reflexivity. }
  rewrite <- Hself at 2. rewrite <- Hret. by destruct (sell _ _ _ _ _).
Defined.

End LedgerFacts.

(** * The ledger's arithmetic *)

Section LedgerArithmetic.

Lemma fits_one : Py.to_double (Int 1) = Ok (Py.exact 1).
Proof. by vm_compute. Qed.

(** The gross amount [price * amount] is a float of the price's kind. *)
Lemma gross_cases price amount :
  match Py.mul (Flt price) (Int amount) with
  | Ok gross =>
      ∃ a, Py.float_of_int amount = Ok a ∧
           gross = Flt (Float (Py.kind_of price) (Py.fmul (Py.value price) a))
  | Raise e => e = Py.OverflowError ∧ fits (Int amount) = false
  end.
Proof.
  destruct (Py.mul (Flt price) (Int amount)) as [gross|e] eqn:H.
  - apply mul_inv in H as (x & a & [= <-] & Ha & ->); [| left; eauto].
    exists a. split; [done |]. cbn. by destruct (Py.kind_of price).
  - by apply mul_raises in H as [-> [H | H]].
Qed.

(** Both totals are floats; they raise only when [amount], or an int
    commission rate, is beyond the doubles. *)
Lemma total_cost_of_cases self price amount :
  match total_cost_of self price amount with
  | Ok total_cost => (∃ y, total_cost = Flt y) ∧ fits (Int amount) = true
  | Raise e =>
      e = Py.OverflowError ∧
      (fits (Int amount) = false ∨
       ∃ n, commission_rate self = Int n ∧ fits (Int (1 + n)) = false)
  end.
Proof.
  unfold total_cost_of.
  pose proof (gross_cases price amount) as Hgross.
  destruct (Py.mul (Flt price) (Int amount)) as [gross|e]; cbn [mbind Py.result_bind];
    [| destruct Hgross as [-> ?]; auto].
  destruct Hgross as (a & Ha & ->).
  assert (fits (Int amount) = true) as Hfits by (unfold fits; cbn; by rewrite Ha).
  destruct (commission_rate self) as [n|r]; cbn [Py.add].
  - cbn [mbind Py.result_bind].
    destruct (Py.mul _ (Int (1 + n))) as [total|e] eqn:H.
    + apply mul_inv in H as (? & ? & _ & _ & ->); [| left; eauto]. eauto.
    + apply mul_raises in H as [-> [H | H]]; [done |]. split; [done |].
      right. by exists n.
  - unfold Py.float_op at 1. rewrite fits_one. cbn [Py.to_double mbind Py.result_bind].
    destruct (Py.mul _ _) as [total|e] eqn:H.
    + apply mul_inv in H as (? & ? & _ & _ & ->); [| left; eauto]. eauto.
    + by apply mul_raises in H as [-> [H | H]].
Qed.

Lemma total_income_of_cases self price amount :
  match total_income_of self price amount with
  | Ok total_income => (∃ y, total_income = Flt y) ∧ fits (Int amount) = true
  | Raise e =>
      e = Py.OverflowError ∧
      (fits (Int amount) = false ∨
       ∃ n, commission_rate self = Int n ∧ fits (Int (1 - n)) = false)
  end.
Proof.
  unfold total_income_of.
  pose proof (gross_cases price amount) as Hgross.
  destruct (Py.mul (Flt price) (Int amount)) as [gross|e]; cbn [mbind Py.result_bind];
    [| destruct Hgross as [-> ?]; auto].
  destruct Hgross as (a & Ha & ->).
  assert (fits (Int amount) = true) as Hfits by (unfold fits; cbn; by rewrite Ha).
  destruct (commission_rate self) as [n|r]; cbn [Py.sub].
  - cbn [mbind Py.result_bind].
    destruct (Py.mul _ (Int (1 - n))) as [total|e] eqn:H.
    + apply mul_inv in H as (? & ? & _ & _ & ->); [| left; eauto]. eauto.
    + apply mul_raises in H as [-> [H | H]]; [done |]. split; [done |].
      right. by exists n.
  - unfold Py.float_op at 1. rewrite fits_one. cbn [Py.to_double mbind Py.result_bind].
    destruct (Py.mul _ _) as [total|e] eqn:H.
    + apply mul_inv in H as (? & ? & _ & _ & ->); [| left; eauto]. eauto.
    + by apply mul_raises in H as [-> [H | H]].
Qed.

(** ** [buy] *)




(** The test of [buy] is made on the rounded cost.  With a cash of
    25030 and a commission rate of 0.0012, 10000 shares at 2.5 cost
    25030.000000000004 and are refused; with a cash of 10001 and a
    commission rate of 0.0001, 10000 shares at 1.0 cost 10001.0 and are
    bought, which leaves the cash 0.0. *)
Example buy_rounds_the_cost :
  total_cost_of (__init__ (Int 25030) (Flt (Float Py.Python double_0_0012)))
    (Float Py.NumPy double_2_5) 10000
    = Ok (Flt (Float Py.NumPy (S754_finite false 6880194010808321 (-38)))) ∧
  (buy (__init__ (Int 25030) (Flt (Float Py.Python double_0_0012)))
     "2024-01-02" (Float Py.NumPy double_2_5) 10000 "000001").1
    = Ok (false, msg_insufficient_fund) ∧
  total_cost_of (__init__ (Int 10001) (Flt (Float Py.Python double_0_0001)))
    (np 1) 10000
    = Ok (Flt (Float Py.NumPy (Py.exact 10001))) ∧
  succeeded
    (buy (__init__ (Int 10001) (Flt (Float Py.Python double_0_0001)))
       "2024-01-02" (np 1) 10000 "000001").1 = true ∧
  capital
    (buy (__init__ (Int 10001) (Flt (Float Py.Python double_0_0001)))
       "2024-01-02" (np 1) 10000 "000001").2
    = Flt (Float Py.NumPy (S754_zero false)).
Proof. repeat split; by vm_compute. Qed.

(** ** [sell] *)

(** C3, as the code has it.  A sell of at most the shares held
    succeeds as soon as its numbers have doubles: the new cash is the
    float sum of the cash and the total income, the shares drop by
    [amount] and one trade record is appended.  Otherwise, when
    [amount], an int commission rate or an int cash is beyond the
    doubles, it raises [OverflowError] and the ledger stays as it
    was. *)
Theorem sell_within_shares self date price amount stock_code :
  let r := sell self date price amount stock_code in
  (amount ≤ shares self)%Z →
  (∃ total_income capital',
     total_income_of self price amount = Ok total_income ∧
     Py.add (capital self) total_income = Ok capital' ∧
     r.1 = Ok (true, SellDone amount price total_income) ∧
     capital r.2 = capital' ∧
     shares r.2 = (shares self - amount)%Z ∧
     trade_history r.2 =
       trade_history self ++
       [Trade date type_sell stock_code price amount total_income] ∧
     daily_state r.2 = daily_state self ∧
     initial_capital r.2 = initial_capital self ∧
     commission_rate r.2 = commission_rate self ∧
     fits (Int amount) = true ∧ fits (capital self) = true) ∨
  (r = (Raise Py.OverflowError, self) ∧
   (fits (Int amount) = false ∨
    (∃ n, commission_rate self = Int n ∧ fits (Int (1 - n)) = false) ∨
    fits (capital self) = false)).
Proof.
  intros r Hle. subst r.
  pose proof (total_income_of_cases self price amount) as Hincome.
  destruct (sell_cases self date price amount stock_code Hle)
    as [(e & Hsell & Hcause) | (total_income & capital' & Hti & Hadd & Hsell)].
  - right. rewrite Hsell.
    destruct Hcause as [Hraise | (total_income & Hti & Hadd)].
    + rewrite Hraise in Hincome. destruct Hincome as [-> Hcause].
      split; [done |]. tauto.
    + rewrite Hti in Hincome. destruct Hincome as [[y ->] _].
      apply add_raises in Hadd as [-> [Hfits | Hfits]]; [| done].
      split; [done |]. tauto.
  - left. exists total_income, capital'.
    rewrite Hti in Hincome. destruct Hincome as [[y ->] Hamount].
    assert (fits (capital self) = true) as Hcash.
    { pose proof Hadd as Hdoubles.
      apply add_inv in Hdoubles as (x & ? & Hx & _); [| right; eauto].
      unfold fits. by rewrite Hx. }
    rewrite Hsell.
    cbn [fst snd capital shares trade_history daily_state initial_capital
         commission_rate].
    done.
Qed.

Lemma sell_within_shares_witness :
  (sell invested_trader "2024-01-03" (np 12) 500 "000001").1 =
    Ok (true, SellDone 500 (np 12)
                (Flt (Float Py.NumPy (S754_finite false 6595090645726003 (-40))))) ∧
  capital (sell invested_trader "2024-01-03" (np 12) 500 "000001").2 =
    Flt (Float Py.NumPy (S754_finite false 6596739913167667 (-36))) ∧
  shares (sell invested_trader "2024-01-03" (np 12) 500 "000001").2 = 500%Z.
Proof.
  pose proof (sell_within_shares invested_trader "2024-01-03" (np 12) 500 "000001")
    as H.
  cbv zeta in H.
  destruct H as [(total_income & capital' & Hti & Hadd & Hret & Hcash & Hshares & _)
                | [Hraise _]].
  - by vm_compute.
  - assert (total_income =
            Flt (Float Py.NumPy (S754_finite false 6595090645726003 (-40))))
      as -> by (vm_compute in Hti; congruence).
    assert (capital' =
            Flt (Float Py.NumPy (S754_finite false 6596739913167667 (-36))))
      as -> by (vm_compute in Hadd; congruence).
    split; [exact Hret |]. split; [exact Hcash |].
    rewrite Hshares. by vm_compute.
  - by vm_compute in Hraise.
Defined.

(** C3 as stated fails on amounts beyond the doubles: a trader who
    bought [2 ^ 1023] shares twice holds [2 ^ 1024] of them, and the
    sell of all of them raises [OverflowError] at [price * amount]; so
    does the sell of [- 2 ^ 1024] shares by a new trader. *)
Lemma sell_raises_overflow :
  shares hoard_trader = (2 ^ 1024)%Z ∧
  (2 ^ 1024 ≤ shares hoard_trader)%Z ∧
  sell hoard_trader "2024-01-04" (py 1) (2 ^ 1024) "000001"
    = (Raise Py.OverflowError, hoard_trader) ∧
  (- 2 ^ 1024 ≤ shares fresh_trader)%Z ∧
  sell fresh_trader "2024-01-04" (py 1) (- 2 ^ 1024) "000001"
    = (Raise Py.OverflowError, fresh_trader).
Proof. repeat split; by vm_compute. Qed.


(** ** The tests of [buy] and [sell] *)

Lemma fmul_zero_r x s :
  Py.is_finite x = true → Py.is_zero (Py.fmul x (S754_zero s)) = true.
Proof. by destruct x. Qed.

Lemma fmul_zero_l z y :
  Py.is_zero z = true → Py.is_finite y = true →
  Py.is_zero (Py.fmul z y) = true.
Proof. by destruct z, y. Qed.

(** Taking a zero away leaves the same number. *)
Lemma fsub_zero x z :
  Py.is_zero z = true → x ≠ S754_nan →
  SFcompare (Py.fsub x z) x = Some Eq.
Proof.
  destruct z as [sz| | |]; try done. intros _ Hx.
  destruct x as [sx|sx| |sx mx ex]; [| | done |].
  - by destruct sx, sz.
  - by destruct sx.
  - by apply SFcompare_refl.
Qed.

(** A zero is not above a number that is not below zero. *)
Lemma zero_not_above k z a :
  Py.is_zero z = true → nonnegative a → fits a = true →
  Py.gt (Flt (Float k z)) a = Ok false.
Proof.
  intros Hz Ha [x Hx]%fits_Ok.
  pose proof (nonnegative_double a x Ha Hx) as Hsign.
  destruct z as [sz| | |]; try done.
  unfold Py.gt, Py.compare. destruct a as [n|[ka y]]; cbn [Py.kind_of Py.value].
  - destruct k; cbn [Py.compare_double_int mbind Py.result_bind].
    + unfold nonnegative, Py.le, Py.compare in Ha. cbn in Ha.
      by destruct n.
    + cbn [Py.to_double] in Hx. rewrite Hx. cbn.
      by destruct x as [?|[]| |[] ? ?].
  - injection Hx as <-. cbn. by destruct y as [?|[]| |[] ? ?].
Qed.

(** C9, as the code has it.  [buy] refuses exactly when the total cost
    it computed is above the cash in its one test, and [sell] refuses
    exactly when [amount] is above the shares held; neither looks at
    the sign of [price] or [amount].  A buy of zero shares at a finite
    price is accepted when the cash is not below zero and has a double
    and [1 + commission_rate] is finite: it appends a trade record and
    leaves the shares as they were and the cash, as a double, the same
    number.  A sell of at most the shares held, zero and negative
    amounts included, succeeds or raises [OverflowError]. *)
Theorem buy_sell_only_tests self date price amount stock_code :
  (refused (buy self date price amount stock_code).1 = true ↔
     ∃ total_cost,
       total_cost_of self price amount = Ok total_cost ∧
       Py.gt total_cost (capital self) = Ok true) ∧
  (Py.is_finite (Py.value price) = true →
   finite_result (Py.add (Int 1) (commission_rate self)) = true →
   nonnegative (capital self) → fits (capital self) = true →
   let r := buy self date price 0 stock_code in
   succeeded r.1 = true ∧
   (∃ total_cost,
      trade_history r.2 =
        trade_history self ++
        [Trade date type_buy stock_code price 0 total_cost]) ∧
   shares r.2 = shares self ∧
   ∃ x x',
     Py.to_double (capital self) = Ok x ∧
     Py.to_double (capital r.2) = Ok x' ∧
     SFcompare x' x = Some Eq) ∧
  (refused (sell self date price amount stock_code).1 = true ↔
     (amount > shares self)%Z) ∧
  ((amount ≤ shares self)%Z →
     succeeded (sell self date price amount stock_code).1 = true ∨
     (sell self date price amount stock_code).1 = Raise Py.OverflowError).
Proof.
  split; [| split; [| split]].
  - unfold buy.
    destruct (total_cost_of self price amount) as [total_cost|e] eqn:Hcost.
    + destruct (Py.gt total_cost (capital self)) as [[|]|e] eqn:Hgt.
      * split; [by exists total_cost | done].
      * destruct (Py.sub (capital self) total_cost); cbn;
          (split; [done | intros (? & [= <-] & ?); congruence]).
      * cbn. split; [done | intros (? & [= <-] & ?); congruence].
    + cbn. split; [done | by intros (? & ? & _)].
  - intros Hprice Hfactor Hcash Hfits r. subst r.
    assert (Py.mul (Flt price) (Int 0) =
            Ok (Flt (Float (Py.kind_of price)
                           (Py.fmul (Py.value price) (S754_zero false)))))
      as Hgross.
    { pose proof (gross_cases price 0) as H.
      destruct (Py.mul (Flt price) (Int 0)) as [gross|]; [| by destruct H].
      by destruct H as (a & [= <-] & ->). }
    unfold finite_result in Hfactor.
    destruct (Py.add (Int 1) (commission_rate self)) as [factor|] eqn:Hadd;
      [| done].
    destruct (Py.to_double factor) as [f|] eqn:Hf; [| done].
    assert (∃ k z, total_cost_of self price 0 = Ok (Flt (Float k z)) ∧
                   Py.is_zero z = true) as (k & z & Hcost & Hz).
    { unfold total_cost_of. rewrite Hgross, Hadd. cbn [mbind Py.result_bind].
      destruct (mul_float (Flt (Float (Py.kind_of price)
                                  (Py.fmul (Py.value price) (S754_zero false))))
                  factor) as [t Ht]; [left; eauto | done | |].
      { unfold fits. by rewrite Hf. }
      pose proof Ht as Hinv.
      apply mul_inv in Hinv as (? & ? & [= <-] & Hf' & Ht'); [| left; eauto].
      rewrite Hf in Hf'. injection Hf' as <-.
      rewrite Ht. eexists _, _. split; [by rewrite Ht' |].
      apply fmul_zero_l; [by apply fmul_zero_r | done]. }
    pose proof (zero_not_above k z (capital self) Hz Hcash Hfits) as Hgt.
    destruct (fits_Ok _ Hfits) as [x Hx].
    destruct (sub_float (capital self) (Flt (Float k z))) as [c Hsub];
      [right; eauto | done | done |].
    rewrite (buy_accepted _ _ _ _ _ _ _ Hcost Hgt Hsub).
    cbn [fst snd succeeded capital shares trade_history].
    split; [done |]. split; [eauto |]. split; [lia |].
    exists x. apply sub_inv in Hsub as (x' & z' & Hx' & [= <-] & ->);
      [| right; eauto].
    rewrite Hx in Hx'. injection Hx' as <-.
    eexists. split; [done |]. split; [done |].
    apply fsub_zero; [done |].
    pose proof (nonnegative_double _ _ Hcash Hx). by intros ->.
  - destruct (decide (amount ≤ shares self)%Z) as [Hle|Hgt].
    + destruct (sell_cases self date price amount stock_code Hle)
        as [(e & -> & _) | (? & ? & _ & _ & ->)]; cbn; (split; [done | lia]).
    + rewrite sell_rejected by lia. cbn. split; [lia | done].
  - intros Hle.
    pose proof (total_income_of_cases self price amount) as Hincome.
    destruct (sell_cases self date price amount stock_code Hle)
      as [(e & -> & Hcause) | (? & ? & _ & _ & ->)]; [right | by left].
    cbn. f_equal.
    destruct Hcause as [Hraise | (total_income & Hti & Hadd)].
    + rewrite Hraise in Hincome. by destruct Hincome.
    + by apply add_raises in Hadd as [-> _].
Qed.

Lemma buy_sell_only_tests_witness :
  succeeded (buy fresh_trader "2024-01-02" (np 10) 0 "000001").1 = true ∧
  shares (buy fresh_trader "2024-01-02" (np 10) 0 "000001").2 = 0%Z ∧
  ∃ x',
    Py.to_double (capital (buy fresh_trader "2024-01-02" (np 10) 0 "000001").2)
      = Ok x' ∧
    SFcompare x' (Py.exact 100000) = Some Eq.
Proof.
  pose proof (buy_sell_only_tests fresh_trader "2024-01-02" (np 10) 0 "000001")
    as (_ & H & _).
  cbv zeta in H.
  destruct H as (Hflag & _ & Hshares & x & x' & Hx & Hx' & Hsame);
    [by vm_compute.. |].
  split; [exact Hflag |]. split; [exact Hshares |].
  exists x'. split; [exact Hx' |].
  assert (Py.to_double (capital fresh_trader) = Ok (Py.exact 100000)) as Hcash
    by (by vm_compute).
  rewrite Hcash in Hx. injection Hx as <-. exact Hsame.
Defined.

(** C9 as stated fails on a ledger whose cash is below zero, which a
    sell of a negative amount produces: there the buy of zero shares is
    refused.  It fails at the price [inf] too: the cost of zero shares
    is then [nan], the buy is accepted and the cash is left [nan]. *)
Lemma buy_of_zero_refused :
  succeeded (sell (__init__ (Int 100) three_basis_points)
               "2024-01-02" (np 10) (-1000) "000001").1 = true ∧
  capital overdrawn_trader =
    Flt (Float Py.NumPy (S754_finite true 5440933290049536 (-39))) ∧
  (buy overdrawn_trader "2024-01-03" (np 10) 0 "000001").1 =
    Ok (false, msg_insufficient_fund) ∧
  succeeded (buy fresh_trader "2024-01-02"
               (Float Py.NumPy (S754_infinity false)) 0 "000001").1 = true ∧
  capital (buy fresh_trader "2024-01-02"
             (Float Py.NumPy (S754_infinity false)) 0 "000001").2 =
    Flt (Float Py.NumPy S754_nan).
Proof. repeat split; by vm_compute. Qed.

(** ** Sequences of calls *)

(** A property that every call keeps holds after any sequence of
    calls; [Q] restricts the calls. *)
Lemma calls_invariant (P : StockTrader → Prop) (Q : ledger_call → Prop) :
  (∀ self c, Q c → P self → P (call self c)) →
  ∀ cs self, Forall Q cs → P self → P (calls self cs).
Proof.
  intros Hstep cs. induction cs as [|c cs IH]; intros self Hcs Hself; [done |].
  apply Forall_cons in Hcs as [Hc Hcs].
  change (calls self (c :: cs)) with (calls (call self c) cs). auto.
Qed.

(** The three shapes of the ledger after one call: as it was, with one
    trade made, or with one snapshot taken. *)
Lemma call_shape self c :
  call self c = self ∨
  (∃ t capital',
     is_trade_call c = true ∧
     (t_type t = type_buy ∨ t_type t = type_sell) ∧
     (∃ y, t_total t = Flt y) ∧
     apply_trade (capital self) t = Ok capital' ∧
     call self c =
       {| initial_capital := initial_capital self;
          capital := capital';
          shares := (shares self + share_delta t)%Z;
          commission_rate := commission_rate self;
          trade_history := trade_history self ++ [t];
          daily_state := daily_state self |}) ∨
  (∃ d, is_trade_call c = false ∧
        call self c =
          {| initial_capital := initial_capital self;
             capital := capital self;
             shares := shares self;
             commission_rate := commission_rate self;
             trade_history := trade_history self;
             daily_state := daily_state self ++ [d] |}).
Proof.
  destruct c as [date price amount code | date price amount code | date price];
    cbn [call].
  - pose proof (total_cost_of_cases self price amount) as Hfloat.
    destruct (buy_cases self date price amount code)
      as [[e ->] | [-> | (total_cost & capital' & Hcost & _ & Hsub & ->)]];
      [by left | by left |].
    right; left. rewrite Hcost in Hfloat. destruct Hfloat as [Hfloat _].
    exists (Trade date type_buy code price amount total_cost), capital'.
    unfold apply_trade, share_delta, is_buy.
    cbn [t_type t_amount t_total snd].
    rewrite bool_decide_eq_true_2 by done. by auto 10.
  - destruct (decide (amount ≤ shares self)%Z) as [Hle|Hgt].
    + pose proof (total_income_of_cases self price amount) as Hfloat.
      destruct (sell_cases self date price amount code Hle)
        as [(e & -> & _) | (total_income & capital' & Hti & Hadd & ->)];
        [by left |].
      right; left. rewrite Hti in Hfloat. destruct Hfloat as [Hfloat _].
      exists (Trade date type_sell code price amount total_income), capital'.
      unfold apply_trade, share_delta, is_buy.
      cbn [t_type t_amount t_total snd].
      rewrite bool_decide_eq_false_2 by done. by auto 10.
    + left. rewrite sell_rejected by lia. done.
  - destruct (record_daily_state self date price) as [[[d c]|e] self'] eqn:Hcall.
    + right; right.
      apply record_daily_state_Ok in Hcall as (pv & _ & _ & _ & ->).
      eexists. split; done.
    + left. by apply record_daily_state_Raise in Hcall as [-> _].
Qed.

(** A trade call leaves the snapshot history alone. *)
Lemma trade_call_daily_state self c :
  is_trade_call c = true → daily_state (call self c) = daily_state self.
Proof.
  intros Hc.
  destruct (call_shape self c)
    as [-> | [(t & ? & _ & _ & _ & _ & ->) | (d & Hrec & _)]];
    [done | done | congruence].
Qed.

(** The cash of a trader is the initial capital until the first trade,
    and a trade needs the double of the cash. *)
Lemma calls_initial_capital funds rate cs :
  initial_capital (calls (__init__ funds rate) cs) = funds ∧
  (capital (calls (__init__ funds rate) cs) = funds ∨ fits funds = true).
Proof.
  apply (calls_invariant
           (λ s, initial_capital s = funds ∧
                 (capital s = funds ∨ fits funds = true))
           (λ _, True)); [| by apply Forall_true | by split; [| left]].
  intros s c _ [Hinit Hcash].
  destruct (call_shape s c)
    as [-> | [(t & capital' & _ & _ & [y Hy] & Htrade & ->) | (d & _ & ->)]];
    [done | | done].
  cbn [initial_capital capital]. split; [done |].
  destruct Hcash as [Hcash | Hfits]; [| by right]. right.
  unfold apply_trade in Htrade. rewrite Hy, Hcash in Htrade.
  destruct (is_buy t).
  - apply sub_inv in Htrade as (x & ? & Hx & _); [| right; eauto].
    unfold fits. by rewrite Hx.
  - apply add_inv in Htrade as (x & ? & Hx & _); [| right; eauto].
    unfold fits. by rewrite Hx.
Qed.

(** ** [record_daily_state] *)

Lemma numpy_no_zero_division a b :
  Py.kind_of_num a = Py.NumPy ∨ Py.kind_of_num b = Py.NumPy →
  python_zero_division a b = false.
Proof.
  unfold python_zero_division. intros [-> | ->]; [done |].
  by rewrite join_NumPy_r.
Qed.

(** The portfolio value is a float; it raises only when the shares or
    an int cash are beyond the doubles. *)
Lemma portfolio_value_of_cases self price :
  match portfolio_value_of self price with
  | Ok portfolio_value =>
      (∃ z, portfolio_value = Flt z ∧
            Py.kind_of z =
              Py.join (Py.kind_of_num (capital self)) (Py.kind_of price)) ∧
      fits (Int (shares self)) = true ∧ fits (capital self) = true
  | Raise e =>
      e = Py.OverflowError ∧
      (fits (Int (shares self)) = false ∨ fits (capital self) = false)
  end.
Proof.
  unfold portfolio_value_of.
  destruct (Py.mul (Int (shares self)) (Flt price)) as [held|e] eqn:Hheld;
    cbn [mbind Py.result_bind].
  - apply mul_inv in Hheld as (xs & xp & Hs & _ & ->); [| right; eauto].
    assert (fits (Int (shares self)) = true) as Hshares
      by (unfold fits; by rewrite Hs).
    destruct (Py.add (capital self) _) as [pv|e] eqn:Hadd.
    + apply add_inv in Hadd as (xc & xh & Hx & _ & ->); [| right; eauto].
      split; [| split; [done | unfold fits; by rewrite Hx]].
      eexists. split; [done |]. cbn [Py.kind_of Py.kind_of_num].
      by rewrite join_Python.
    + apply add_raises in Hadd as [-> [Hfits | Hfits]]; [auto | done].
  - apply mul_raises in Hheld as [-> [Hfits | Hfits]]; [auto | done].
Qed.

(** A quotient and its percentage, when the dividend is a float. *)
Lemma percent_of_quotient_cases x b :
  match q ← Py.truediv (Flt x) b; percent q with
  | Ok p =>
      fits b = true ∧ python_zero_division (Flt x) b = false ∧
      ∃ q d, Py.truediv (Flt x) b = Ok q ∧
             Py.sub q (Int 1) = Ok d ∧ Py.mul d (Int 100) = Ok p
  | Raise e =>
      (e = Py.OverflowError ∧ fits b = false) ∨
      (e = Py.ZeroDivisionError ∧ fits b = true ∧
       python_zero_division (Flt x) b = true)
  end.
Proof.
  pose proof (truediv_float_cases x b) as Hdiv.
  destruct (Py.truediv (Flt x) b) as [q|e]; cbn [mbind Py.result_bind];
    [| done].
  destruct Hdiv as ([z ->] & Hfits & Hzero).
  destruct (percent_float z) as [p Hp]. rewrite Hp.
  split; [done |]. split; [done |]. exists (Flt z).
  unfold percent in Hp.
  destruct (Py.sub (Flt z) (Int 1)) as [d|] eqn:Hd; [| done].
  exists d. done.
Qed.

(** The daily return raises in one case only. *)
Lemma daily_return_of_raises self price e :
  daily_return_of self price = Raise e ↔
  e = Py.ZeroDivisionError ∧
  ∃ prev, last (daily_state self) = Some prev ∧
          python_zero_division (Flt price) (Flt (d_price prev)) = true.
Proof.
  unfold daily_return_of.
  destruct (last (daily_state self)) as [prev|];
    [| split; [done | by intros (_ & ? & ? & _)]].
  pose proof (percent_of_quotient_cases price (Flt (d_price prev))) as H.
  destruct (_ ≫= _) as [p|e'].
  - destruct H as (_ & Hzero & _).
    split; [done |]. intros (_ & ? & [= <-] & ?). congruence.
  - destruct H as [[_ H] | (-> & _ & Hzero)]; [done |].
    split; [intros [= <-]; eauto | by intros [-> _]].
Qed.

(** The cumulative return of a portfolio value that is a float. *)
Lemma cumulative_return_of_cases self z :
  match cumulative_return_of self (Flt z) with
  | Ok c =>
      fits (initial_capital self) = true ∧
      python_zero_division (Flt z) (initial_capital self) = false
  | Raise e =>
      (e = Py.OverflowError ∧ fits (initial_capital self) = false) ∨
      (e = Py.ZeroDivisionError ∧ fits (initial_capital self) = true ∧
       python_zero_division (Flt z) (initial_capital self) = true)
  end.
Proof.
  unfold cumulative_return_of.
  pose proof (percent_of_quotient_cases z (initial_capital self)) as H.
  destruct (_ ≫= _) as [p|e']; [| done]. by destruct H as (? & ? & _).
Qed.

(** With no shares held the portfolio is worth the same on both days,
    yet a price going from 10 to 11 gives the daily return
    10.000000000000009, the double that [(11 / 10 - 1) * 100] rounds
    to. *)
Example daily_return_follows_price :
  (record_daily_state observed_trader "2024-01-03" (np 11)).1 =
    Ok (Flt (Float Py.NumPy (S754_finite false 5629499534213125 (-49))),
        Flt (Float Py.NumPy (S754_zero false))).
Proof. by vm_compute. Qed.

(** C5, as the code has it.  A call of [record_daily_state] that
    returns yields the pair (daily return, cumulative return) and
    appends one snapshot holding the same two numbers, computed in
    doubles in the order the source writes them: the daily return is
    the int 0 on an empty history and [(price / previous price - 1) *
    100] otherwise, from the price of the last snapshot and not from
    its portfolio value; the cumulative return is [((capital + shares *
    price) / initial_capital - 1) * 100].  A call that raises leaves
    the ledger as it was: [OverflowError] when the shares, an int cash
    or an int initial capital are beyond the doubles,
    [ZeroDivisionError] when a divisor is a zero and no operand of the
    division is a NumPy float.  With a NumPy price and numbers that
    have doubles the call returns. *)
Theorem record_daily_state_figures self date price :
  let r := record_daily_state self date price in
  match r.1 with
  | Ok (daily_return, cumulative_return) =>
      ∃ portfolio_value,
        (held ← Py.mul (Int (shares self)) (Flt price);
         Py.add (capital self) held) = Ok portfolio_value ∧
        match last (daily_state self) with
        | None => daily_return = Int 0
        | Some prev =>
            (q ← Py.truediv (Flt price) (Flt (d_price prev));
             d ← Py.sub q (Int 1);
             Py.mul d (Int 100)) = Ok daily_return
        end ∧
        (q ← Py.truediv portfolio_value (initial_capital self);
         d ← Py.sub q (Int 1);
         Py.mul d (Int 100)) = Ok cumulative_return ∧
        r.2 =
          {| initial_capital := initial_capital self;
             capital := capital self;
             shares := shares self;
             commission_rate := commission_rate self;
             trade_history := trade_history self;
             daily_state :=
               daily_state self ++
               [Snapshot date price (capital self) (shares self)
                         portfolio_value daily_return cumulative_return] |}
  | Raise e =>
      r.2 = self ∧
      ((e = Py.OverflowError ∧
        (fits (Int (shares self)) = false ∨ fits (capital self) = false ∨
         fits (initial_capital self) = false)) ∨
       (e = Py.ZeroDivisionError ∧
        ((∃ prev, last (daily_state self) = Some prev ∧
                  python_zero_division (Flt price) (Flt (d_price prev)) = true) ∨
         (∃ portfolio_value,
            portfolio_value_of self price = Ok portfolio_value ∧
            python_zero_division portfolio_value (initial_capital self) = true))))
  end ∧
  (Py.kind_of price = Py.NumPy →
   fits (Int (shares self)) = true → fits (capital self) = true →
   fits (initial_capital self) = true →
   ∃ daily_return cumulative_return,
     r.1 = Ok (daily_return, cumulative_return)).
Proof.
  intros r.
  assert (match r.1 with
          | Ok _ => True
          | Raise e =>
              r.2 = self ∧
              ((e = Py.OverflowError ∧
                (fits (Int (shares self)) = false ∨ fits (capital self) = false ∨
                 fits (initial_capital self) = false)) ∨
               (e = Py.ZeroDivisionError ∧
                ((∃ prev, last (daily_state self) = Some prev ∧
                          python_zero_division (Flt price) (Flt (d_price prev))
                            = true) ∨
                 (∃ portfolio_value,
                    portfolio_value_of self price = Ok portfolio_value ∧
                    python_zero_division portfolio_value (initial_capital self)
                      = true))))
          end) as Hraise.
  { subst r.
    destruct (record_daily_state self date price) as [[[d c]|e] self'] eqn:Hcall;
      [done |].
    apply record_daily_state_Raise in Hcall as [-> Hcause]. split; [done |].
    pose proof (portfolio_value_of_cases self price) as Hpv.
    destruct Hcause as [Hcause | (pv & Hpv' & Hcause)].
    - rewrite Hcause in Hpv. destruct Hpv as [-> Hpv]. left. tauto.
    - rewrite Hpv' in Hpv. destruct Hpv as [(z & -> & _) _].
      destruct Hcause as [Hdaily | [_ Hcum]].
      + apply daily_return_of_raises in Hdaily as [-> Hdaily]. right. tauto.
      + pose proof (cumulative_return_of_cases self z) as H.
        rewrite Hcum in H. destruct H as [[-> H] | (-> & _ & H)].
        * left. tauto.
        * right. split; [done |]. right. by exists (Flt z). }
  split.
  - subst r.
    destruct (record_daily_state self date price) as [[[d c]|e] self'] eqn:Hcall;
      [| exact Hraise].
    apply record_daily_state_Ok in Hcall as (pv & Hpv & Hdaily & Hcum & ->).
    exists pv. split; [exact Hpv |]. split; [| split; [exact Hcum | done]].
    unfold daily_return_of in Hdaily.
    destruct (last (daily_state self)); [exact Hdaily | congruence].
  - intros Hnumpy Hshares Hcash Hinit.
    destruct r.1 as [[d c]|e]; [by exists d, c |].
    destruct Hraise as [_ [[_ Hfits] | [_ Hzero]]].
    + destruct Hfits as [? | [? | ?]]; congruence.
    + destruct Hzero as [(prev & _ & Hzero) | (pv & Hpv & Hzero)].
      * rewrite numpy_no_zero_division in Hzero by (by left). done.
      * pose proof (portfolio_value_of_cases self price) as H.
        rewrite Hpv in H. destruct H as [(z & -> & Hkind) _].
        rewrite numpy_no_zero_division in Hzero; [done |].
        left. cbn. by rewrite Hkind, Hnumpy, join_NumPy_r.
Qed.

Lemma record_daily_state_figures_witness :
  ∃ daily_return cumulative_return,
    (record_daily_state observed_trader "2024-01-03" (np 11)).1 =
      Ok (daily_return, cumulative_return).
Proof.
  apply (record_daily_state_figures observed_trader "2024-01-03" (np 11));
    by vm_compute.
Defined.

(** C5 as stated fails where the call raises: after a snapshot at the
    Python float 0.0, the call at the Python float 1.0 divides by zero
    and records nothing; [main] passes NumPy floats, whose division
    gives [inf] instead. *)
Lemma record_daily_state_raises :
  (∃ prev, last (daily_state zero_priced_trader) = Some prev ∧
           d_price prev = py 0) ∧
  record_daily_state zero_priced_trader "2024-01-03" (py 1) =
    (Raise Py.ZeroDivisionError, zero_priced_trader) ∧
  (record_daily_state
     (call fresh_trader (CallRecord "2024-01-02" (np 0))) "2024-01-03" (np 1)).1 =
    Ok (Flt (Float Py.NumPy (S754_infinity false)),
        Flt (Float Py.NumPy (S754_zero false))).
Proof.
  split; [| split; by vm_compute].
  eexists. split; by vm_compute.
Qed.

(** An int beyond the doubles raises [OverflowError] where it meets a
    float: the initial capital [2 ^ 1024] in the portfolio value, and
    so do [2 ^ 1024] shares. *)
Example record_daily_state_overflow :
  record_daily_state giant_trader "2024-01-02" (py 1)
    = (Raise Py.OverflowError, giant_trader) ∧
  record_daily_state hoard_trader "2024-01-04" (py 1)
    = (Raise Py.OverflowError, hoard_trader).
Proof. split; by vm_compute. Qed.

(** ** The two divisions *)

Lemma percent_raises q e : percent q = Raise e → e = Py.OverflowError.
Proof.
  unfold percent. destruct (Py.sub q (Int 1)) as [d|e'] eqn:Hd; cbn.
  - by intros [-> _]%mul_raises.
  - intros [= <-]. by apply sub_raises in Hd as [-> _].
Qed.

Lemma int_truediv_raises m n :
  Py.int_truediv m n = Raise Py.ZeroDivisionError → n = 0%Z.
Proof.
  unfold Py.int_truediv. destruct (Z.eqb_spec n 0); [done |].
  destruct (m =? 0)%Z; [done |].
  destruct (SFdiv_core_binary _ _ _ _ _ _) as [[q e] l].
  by destruct (binary_round_aux _ _ _ _ _ _).
Qed.

(** A division raises [ZeroDivisionError] only on a divisor whose
    double is a zero. *)
Lemma truediv_zero_division a b :
  Py.truediv a b = Raise Py.ZeroDivisionError →
  ∃ y, Py.to_double b = Ok y ∧ Py.is_zero y = true.
Proof.
  unfold Py.truediv.
  assert ((x ← Py.to_double a; y ← Py.to_double b;
           match Py.join (Py.kind_of_num a) (Py.kind_of_num b) with
           | Py.Python =>
               if Py.is_zero y then Raise Py.ZeroDivisionError
               else Ok (Flt (Float Py.Python (Py.fdiv x y)))
           | Py.NumPy => Ok (Flt (Float Py.NumPy (Py.fdiv x y)))
           end) = Raise Py.ZeroDivisionError →
          ∃ y, Py.to_double b = Ok y ∧ Py.is_zero y = true) as Hfloat.
  { destruct (Py.to_double a) as [x|e] eqn:Ha; cbn;
      [| intros [= ->]; by apply to_double_raises in Ha as [[=] _]].
    destruct (Py.to_double b) as [y|e] eqn:Hb; cbn;
      [| intros [= ->]; by apply to_double_raises in Hb as [[=] _]].
    destruct (Py.join _ _); [| done].
    destruct (Py.is_zero y) eqn:Hy; [by exists y | done]. }
  destruct a as [m|x], b as [n|y]; try exact Hfloat.
  destruct (Py.int_truediv m n) as [q|e] eqn:Hdiv; cbn; [done |].
  intros [= ->]. apply int_truediv_raises in Hdiv as ->.
  by exists (S754_zero false).
Qed.

Lemma cumulative_return_of_positive self portfolio_value :
  Py.gt (initial_capital self) (Int 0) = Ok true →
  cumulative_return_of self portfolio_value ≠ Raise Py.ZeroDivisionError.
Proof.
  intros Hpos. unfold cumulative_return_of.
  destruct (Py.truediv portfolio_value (initial_capital self)) as [q|e] eqn:Hdiv;
    cbn.
  - intros H. by apply percent_raises in H.
  - intros [= ->]. apply truediv_zero_division in Hdiv as (y & Hy & Hzero).
    by rewrite (positive_nonzero _ _ Hpos Hy) in Hzero.
Qed.

(** On a trader made by [__init__] with a capital above zero, the
    cumulative return is there as soon as the portfolio value is. *)
Lemma cumulative_return_of_reached funds rate cs price portfolio_value :
  Py.gt funds (Int 0) = Ok true →
  portfolio_value_of (calls (__init__ funds rate) cs) price = Ok portfolio_value →
  ∃ c, cumulative_return_of (calls (__init__ funds rate) cs) portfolio_value
         = Ok c.
Proof.
  intros Hpos Hpv.
  destruct (calls_initial_capital funds rate cs) as [Hinit Hcash].
  pose proof (portfolio_value_of_cases (calls (__init__ funds rate) cs) price)
    as H.
  rewrite Hpv in H. destruct H as ((z & -> & _) & _ & Hfits).
  assert (fits funds = true) as Hfunds
    by (destruct Hcash as [<- | ?]; done).
  pose proof (cumulative_return_of_cases (calls (__init__ funds rate) cs) z)
    as H.
  destruct (cumulative_return_of _ (Flt z)) as [c|e] eqn:Hcum; [by exists c |].
  rewrite Hinit in H. destruct H as [[_ H] | (-> & _ & _)]; [congruence |].
  exfalso. revert Hcum. apply cumulative_return_of_positive. by rewrite Hinit.
Qed.

(** C10.  The division of the daily return is guarded by the emptiness
    test only: it is defined, and the daily return is there, when the
    history is empty or the last snapshot has a price other than zero;
    it raises in one case only, a last snapshot whose price is a zero,
    and then only between two Python floats (a NumPy price gives [inf]
    or [nan] instead).  With an initial capital above zero the division
    of the cumulative return never divides by zero, and on a trader
    made by [__init__] it is defined whenever the portfolio value is:
    the call then raises exactly when the portfolio value or the daily
    return does. *)
Theorem record_daily_state_divisions self funds rate cs date price :
  ((daily_state self = [] ∨
    ∃ prev, last (daily_state self) = Some prev ∧
            Py.is_zero (Py.value (d_price prev)) = false) →
   ∃ d, daily_return_of self price = Ok d) ∧
  (∀ e, daily_return_of self price = Raise e ↔
     e = Py.ZeroDivisionError ∧
     ∃ prev, last (daily_state self) = Some prev ∧
             Py.is_zero (Py.value (d_price prev)) = true ∧
             Py.kind_of price = Py.Python ∧
             Py.kind_of (d_price prev) = Py.Python) ∧
  (Py.gt (initial_capital self) (Int 0) = Ok true →
   ∀ portfolio_value,
     cumulative_return_of self portfolio_value ≠ Raise Py.ZeroDivisionError) ∧
  (Py.gt funds (Int 0) = Ok true →
   let trader := calls (__init__ funds rate) cs in
   (∀ portfolio_value,
      portfolio_value_of trader price = Ok portfolio_value →
      ∃ c, cumulative_return_of trader portfolio_value = Ok c) ∧
   (∀ e, (record_daily_state trader date price).1 = Raise e ↔
      portfolio_value_of trader price = Raise e ∨
      ((∃ portfolio_value, portfolio_value_of trader price = Ok portfolio_value) ∧
       daily_return_of trader price = Raise e))).
Proof.
  assert (∀ prev,
            python_zero_division (Flt price) (Flt (d_price prev)) = true ↔
            Py.is_zero (Py.value (d_price prev)) = true ∧
            Py.kind_of price = Py.Python ∧
            Py.kind_of (d_price prev) = Py.Python) as Hzero.
  { intros prev. unfold python_zero_division. cbn.
    destruct (Py.kind_of price), (Py.kind_of (d_price prev)); cbn;
      (split; [intros H | intros (H & ? & ?)]; done). }
  split; [| split; [| split]].
  - intros Hguard.
    destruct (daily_return_of self price) as [d|e] eqn:Hdaily; [by exists d |].
    apply daily_return_of_raises in Hdaily as (_ & prev & Hlast & Hdiv).
    apply Hzero in Hdiv as (Hdiv & _).
    destruct Hguard as [Hnil | (prev' & Hlast' & Hnz)].
    + by rewrite Hnil in Hlast.
    + congruence.
  - intros e. rewrite daily_return_of_raises.
    split; intros (-> & prev & Hlast & H); (split; [done |]); exists prev;
      (split; [done |]); by apply Hzero.
  - intros Hpos pv. by apply cumulative_return_of_positive.
  - intros Hpos trader. subst trader. split.
    + intros pv. by apply cumulative_return_of_reached.
    + intros e. split.
      * destruct (record_daily_state _ date price) as [res self'] eqn:Hcall.
        cbn. intros ->.
        apply record_daily_state_Raise in Hcall
          as [_ [Hpv | (pv & Hpv & [Hdaily | [_ Hcum]])]];
          [by left | right; eauto |].
        destruct (cumulative_return_of_reached funds rate cs price pv Hpos Hpv)
          as [c Hc].
        congruence.
      * unfold record_daily_state.
        intros [-> | [[pv ->] ->]]; done.
Qed.

Lemma record_daily_state_divisions_witness :
  (∃ d, daily_return_of observed_trader (np 11) = Ok d) ∧
  (∃ c, cumulative_return_of observed_trader
          (Flt (Float Py.NumPy (S754_finite false 6871947673600000 (-36))))
        = Ok c).
Proof.
  pose proof (record_daily_state_divisions observed_trader (Int 100000)
                three_basis_points [CallRecord "2024-01-02" (np 10)]
                "2024-01-03" (np 11)) as (Hdaily & _ & _ & Hcum).
  split.
  - apply Hdaily. right. eexists. split; by vm_compute.
  - cbv zeta in Hcum. destruct Hcum as [Hcum _]; [by vm_compute |].
    apply Hcum. by vm_compute.
Defined.

(** ** The snapshot history *)

Lemma call_daily_state self c :
  ∃ k, daily_state (call self c) = daily_state self ++ k ∧
       d_date <$> k = recorded_dates self [c].
Proof.
  destruct c as [date price amount code | date price amount code | date price].
  - exists []. rewrite app_nil_r. split; [| done].
    by apply trade_call_daily_state.
  - exists []. rewrite app_nil_r. split; [| done].
    by apply trade_call_daily_state.
  - cbn [call recorded_dates].
    destruct (record_daily_state self date price) as [[[d c]|e] self'] eqn:Hcall.
    + apply record_daily_state_Ok in Hcall as (pv & _ & _ & _ & ->). cbn.
      eexists. split; [reflexivity | done].
    + apply record_daily_state_Raise in Hcall as [-> _].
      exists []. by rewrite app_nil_r.
Qed.

Lemma recorded_dates_cons self c cs :
  recorded_dates self (c :: cs) =
  recorded_dates self [c] ++ recorded_dates (call self c) cs.
Proof. cbn. by rewrite app_nil_r. Qed.

(** C8, as the code has it.  The snapshot history is append-only: over
    any sequence of ledger calls the history before is a prefix of the
    history after, [buy] and [sell] add nothing to it, and every call of
    [record_daily_state] that returns adds one snapshot with the date it
    was given.  The dates in the history are thus the dates of those
    calls in call order; the ledger compares no dates. *)
Theorem daily_state_append_only self cs :
  daily_state self `prefix_of` daily_state (calls self cs) ∧
  d_date <$> daily_state (calls self cs) =
    (d_date <$> daily_state self) ++ recorded_dates self cs.
Proof.
  revert self. induction cs as [|c cs IH]; intros self.
  - cbn. by rewrite app_nil_r.
  - destruct (call_daily_state self c) as (k & Hstep & Hdates).
    destruct (IH (call self c)) as (Hprefix & Hmap).
    change (calls self (c :: cs)) with (calls (call self c) cs).
    split.
    + etrans; [| exact Hprefix]. rewrite Hstep. by apply prefix_app_r.
    + rewrite (recorded_dates_cons self c cs), Hmap, Hstep, fmap_app, Hdates.
      by rewrite (assoc_L (++)).
Qed.

(** C8 as stated fails: two calls of [record_daily_state] with one date
    leave two snapshots of that date, two calls with decreasing dates
    leave them in that order, and so do two runs of the script on the
    same day. *)
Lemma daily_state_repeats_a_date :
  d_date <$> daily_state
    (calls fresh_trader [CallRecord "2024-01-02" (np 10);
                         CallRecord "2024-01-02" (np 10)])
    = ["2024-01-02"; "2024-01-02"] ∧
  ¬ NoDup (d_date <$> daily_state
    (calls fresh_trader [CallRecord "2024-01-02" (np 10);
                         CallRecord "2024-01-02" (np 10)])) ∧
  d_date <$> daily_state
    (calls fresh_trader [CallRecord "2024-01-03" (np 11);
                         CallRecord "2024-01-02" (np 10)])
    = ["2024-01-03"; "2024-01-02"] ∧
  d_date <$> daily_state
    (record_run two_bars (initial_current_day 2)
       (record_run two_bars (initial_current_day 2) fresh_trader))
    = ["2024-01-03"; "2024-01-03"].
Proof.
  assert (d_date <$> daily_state
    (calls fresh_trader [CallRecord "2024-01-02" (np 10);
                         CallRecord "2024-01-02" (np 10)])
    = ["2024-01-02"; "2024-01-02"]) as Hsame by (by vm_compute).
  split; [exact Hsame |].
  split; [| split; by vm_compute].
  rewrite Hsame. intros Hnodup. apply NoDup_cons in Hnodup as [Hnotin _].
  apply Hnotin. by left.
Qed.

End LedgerArithmetic.

(** * Sessions of the ledger *)

Section LedgerSessions.

(** X1.  The trade history is append-only over any sequence of calls:
    the old history is kept as it was and followed by at most one new
    record per buy or sell call, each of type "买入" or "卖出"; calls of
    [record_daily_state] add none. *)
Theorem trade_history_append_only self cs :
  ∃ k, trade_history (calls self cs) = trade_history self ++ k ∧
       (length k ≤ length (filter (λ c, is_trade_call c = true) cs))%nat ∧
       Forall (λ t, t_type t = type_buy ∨ t_type t = type_sell) k.
Proof.
  revert self. induction cs as [|c cs IH]; intros self.
  - exists []. cbn. by rewrite app_nil_r.
  - change (calls self (c :: cs)) with (calls (call self c) cs).
    destruct (IH (call self c)) as (k & -> & Hlen & Htypes).
    destruct (call_shape self c)
      as [-> | [(t & ? & Htrade & Htype & _ & _ & ->) | (d & Hrec & ->)]];
      cbn [trade_history].
    + exists k. split; [done |]. split; [| done].
      rewrite filter_cons. case_decide; cbn; lia.
    + exists (t :: k). rewrite <- (assoc_L (++)). split; [done |].
      split; [| by constructor].
      rewrite filter_cons, decide_True by done. cbn. lia.
    + exists k. split; [done |]. split; [| done].
      rewrite filter_cons, decide_False by congruence. done.
Qed.

(** X2.  No call changes [initial_capital] or [commission_rate]: after
    any sequence of calls both are what [__init__] was given. *)
Theorem calls_keep_parameters self cs :
  initial_capital (calls self cs) = initial_capital self ∧
  commission_rate (calls self cs) = commission_rate self.
Proof.
  apply (calls_invariant
           (λ s, initial_capital s = initial_capital self ∧
                 commission_rate s = commission_rate self)
           (λ _, True)); [| by apply Forall_true | done].
  intros s c _ [Hcap Hrate].
  destruct (call_shape s c)
    as [-> | [(t & ? & _ & _ & _ & _ & ->) | (d & _ & ->)]]; done.
Qed.

Lemma has_buy_transaction_snoc self t :
  existsb is_buy (trade_history self ++ [t]) = has_buy_transaction self || is_buy t.
Proof. rewrite existsb_app. cbn. by rewrite orb_false_r. Qed.

(** The answer of [has_buy_transaction] after one call. *)
Lemma has_buy_transaction_call self c :
  has_buy_transaction (call self c) =
  has_buy_transaction self ||
  match c with
  | CallBuy date price amount stock_code =>
      succeeded (buy self date price amount stock_code).1
  | _ => false
  end.
Proof.
  destruct c as [date price amount code | date price amount code | date price];
    cbn [call].
  - destruct (buy_cases self date price amount code)
      as [[e ->] | [-> | (total_cost & capital' & _ & _ & _ & ->)]];
      cbn [fst snd succeeded]; rewrite ?orb_false_r; [done | done |].
    unfold has_buy_transaction at 1. cbn [trade_history].
    by rewrite (has_buy_transaction_snoc self).
  - rewrite orb_false_r.
    destruct (decide (amount ≤ shares self)%Z) as [Hle|Hgt].
    + destruct (sell_cases self date price amount code Hle)
        as [(e & -> & _) | (total_income & capital' & _ & _ & ->)]; [done |].
      cbn [snd]. unfold has_buy_transaction at 1. cbn [trade_history].
      rewrite (has_buy_transaction_snoc self). by rewrite orb_false_r.
    + by rewrite sell_rejected by lia.
  - rewrite orb_false_r.
    destruct (record_daily_state self date price) as [[[d c]|e] self'] eqn:Hcall.
    + by apply record_daily_state_Ok in Hcall as (pv & _ & _ & _ & ->).
    + by apply record_daily_state_Raise in Hcall as [-> _].
Qed.

(** X3.  [has_buy_transaction] is false on a new trader, becomes true
    exactly by a buy that succeeds, and once true stays true whatever is
    called afterwards; sells, refused buys and snapshots never set it. *)
Theorem has_buy_transaction_latches self c cs :
  (∀ initial_capital commission_rate,
     has_buy_transaction (__init__ initial_capital commission_rate) = false) ∧
  has_buy_transaction (call self c) =
    has_buy_transaction self ||
    match c with
    | CallBuy date price amount stock_code =>
        succeeded (buy self date price amount stock_code).1
    | _ => false
    end ∧
  (has_buy_transaction self = true →
     has_buy_transaction (calls self cs) = true).
Proof.
  split; [done |]. split; [apply has_buy_transaction_call |].
  intros Hset.
  apply (calls_invariant (λ s, has_buy_transaction s = true) (λ _, True));
    [| by apply Forall_true | done].
  intros s c' _ Hs. by rewrite has_buy_transaction_call, Hs.
Qed.

Lemma has_buy_transaction_latches_witness :
  has_buy_transaction
    (calls invested_trader
       [CallSell "2024-01-03" (np 12) 1000 "000001";
        CallRecord "2024-01-03" (np 12)]) = true.
Proof.
  pose proof (has_buy_transaction_latches invested_trader
                (CallRecord "2024-01-03" (np 12))
                [CallSell "2024-01-03" (np 12) 1000 "000001";
                 CallRecord "2024-01-03" (np 12)]) as (_ & _ & H).
  apply H. by vm_compute.
Defined.

(** X4.  The flag [buy_executed] that the trade form keeps in the
    session agrees with [has_buy_transaction]: when it does before the
    button "执行交易" is served, it does after. *)
Theorem execute_trade_flag trader buy_executed act current_date current_price
    amount selected_stock :
  buy_executed = has_buy_transaction trader →
  let r := execute_trade trader buy_executed act current_date current_price
             amount selected_stock in
  r.2 = has_buy_transaction r.1.
Proof.
  intros -> r. subst r. destruct act; cbn [execute_trade].
  - pose proof (has_buy_transaction_call trader
                  (CallBuy current_date current_price amount selected_stock))
      as Hcall.
    cbn [call] in Hcall.
    destruct (buy trader current_date current_price amount selected_stock)
      as [[[success message]|e] trader'].
    + cbn in *. rewrite Hcall. by destruct success, (has_buy_transaction trader).
    + cbn in *. by rewrite Hcall, orb_false_r.
  - pose proof (has_buy_transaction_call trader
                  (CallSell current_date current_price amount selected_stock))
      as Hcall.
    cbn [call] in Hcall.
    destruct (sell trader current_date current_price amount selected_stock)
      as [[[success message]|e] trader'];
      cbn in *; by rewrite Hcall, orb_false_r.
  - done.
Qed.

Lemma execute_trade_flag_witness :
  (execute_trade fresh_trader false ActionBuy "2024-01-02" (np 10) 1000
     "000001").2 = true.
Proof.
  pose proof (execute_trade_flag fresh_trader false ActionBuy "2024-01-02"
                (np 10) 1000 "000001") as H.
  cbv zeta in H. rewrite H by done. by vm_compute.
Defined.

Lemma total_share_delta_snoc ts t :
  total_share_delta (ts ++ [t]) = (total_share_delta ts + share_delta t)%Z.
Proof.
  unfold total_share_delta. induction ts as [|t' ts IH]; cbn; [lia |].
  rewrite IH. lia.
Qed.

Lemma cash_after_snoc funds ts t :
  cash_after funds (ts ++ [t]) = cash ← cash_after funds ts; apply_trade cash t.
Proof. unfold cash_after. by rewrite foldl_snoc. Qed.

(** X5.  The ledger agrees with its own trade history.  After any
    sequence of calls on a new trader, the shares are the amounts bought
    minus the amounts sold, and the cash is what the records give when
    their totals are taken from and added to the initial capital one
    after the other, in the ledger's arithmetic and in the order of the
    history. *)
Theorem ledger_matches_history funds rate cs :
  let self := calls (__init__ funds rate) cs in
  shares self = total_share_delta (trade_history self) ∧
  cash_after funds (trade_history self) = Ok (capital self).
Proof.
  apply (calls_invariant
           (λ s, shares s = total_share_delta (trade_history s) ∧
                 cash_after funds (trade_history s) = Ok (capital s))
           (λ _, True)); [| by apply Forall_true | done].
  intros s c _ [Hshares Hcash].
  destruct (call_shape s c)
    as [-> | [(t & capital' & _ & _ & _ & Htrade & ->) | (d & _ & ->)]];
    cbn [shares capital trade_history]; [done | | done].
  rewrite total_share_delta_snoc, cash_after_snoc, Hshares, Hcash.
  split; [done | exact Htrade].
Qed.

(** X6.  The shares stay non-negative.  On a ledger with non-negative
    shares, any sequence of calls whose buys are of non-negative amounts
    leaves the shares non-negative: a sell never takes more than is
    held. *)
Theorem shares_stay_nonnegative self cs :
  (0 ≤ shares self)%Z → Forall plain_call cs →
  (0 ≤ shares (calls self cs))%Z.
Proof.
  intros Hshares Hcs.
  apply (calls_invariant (λ s, (0 ≤ shares s)%Z) plain_call); [| done | done].
  clear. intros s c Hc Hshares.
  destruct c as [date price amount code | date price amount code | date price];
    cbn [call].
  - cbn in Hc.
    destruct (buy_cases s date price amount code)
      as [[e ->] | [-> | (total_cost & capital' & _ & _ & _ & ->)]];
      [done | done |]. cbn. lia.
  - destruct (decide (amount ≤ shares s)%Z) as [Hle|Hgt].
    + destruct (sell_cases s date price amount code Hle)
        as [(e & -> & _) | (total_income & capital' & _ & _ & ->)]; [done |].
      cbn. lia.
    + by rewrite sell_rejected by lia.
  - destruct (record_daily_state s date price) as [[[d c]|e] s'] eqn:Hcall.
    + by apply record_daily_state_Ok in Hcall as (pv & _ & _ & _ & ->).
    + by apply record_daily_state_Raise in Hcall as [-> _].
Qed.

Lemma shares_stay_nonnegative_witness :
  (0 ≤ shares (calls fresh_trader
                 [CallBuy "2024-01-02" (np 10) 1000 "000001";
                  CallSell "2024-01-03" (np 12) 500 "000001"]))%Z.
Proof.
  apply (shares_stay_nonnegative fresh_trader
           [CallBuy "2024-01-02" (np 10) 1000 "000001";
            CallSell "2024-01-03" (np 12) 500 "000001"]).
  - by vm_compute.
  - repeat constructor; by vm_compute.
Defined.

(** X9.  Every snapshot in the history of a trader is coherent: its
    portfolio value is its own capital plus its shares at its price, and
    its cumulative return is that value against the initial capital,
    [(portfolio_value / initial_capital - 1) * 100], both as the
    ledger's arithmetic on doubles gives them. *)
Theorem snapshots_coherent funds rate cs :
  Forall (snapshot_coherent funds) (daily_state (calls (__init__ funds rate) cs)).
Proof.
  enough (initial_capital (calls (__init__ funds rate) cs) = funds ∧
          Forall (snapshot_coherent funds)
            (daily_state (calls (__init__ funds rate) cs))) as [_ H]; [done |].
  apply (calls_invariant
           (λ s, initial_capital s = funds ∧
                 Forall (snapshot_coherent funds) (daily_state s))
           (λ _, True)); [| by apply Forall_true | by split; [| constructor]].
  clear. intros s c _ [Hic Hall].
  destruct (is_trade_call c) eqn:Hc.
  - rewrite trade_call_daily_state by done. split; [| done].
    destruct (call_shape s c)
      as [-> | [(t & ? & _ & _ & _ & _ & ->) | (d & _ & ->)]]; done.
  - destruct c as [| | date price]; [done | done |]. cbn [call].
    destruct (record_daily_state s date price) as [[[d c]|e] s'] eqn:Hcall.
    + apply record_daily_state_Ok in Hcall as (pv & Hpv & _ & Hcum & ->). cbn.
      split; [done |]. apply Forall_app. split; [done |].
      constructor; [| constructor]. split; cbn; [exact Hpv |].
      by rewrite <- Hic.
    + by apply record_daily_state_Raise in Hcall as [-> _].
Qed.

(** X10.  The daily returns chain the recorded prices.  In the history
    of a trader the first snapshot has the daily return 0, and every
    later one has [(its price / the price of the snapshot before - 1) *
    100] as the ledger's arithmetic on doubles gives it, whatever was
    bought or sold between the two. *)
Theorem daily_returns_chain funds rate cs :
  let history := daily_state (calls (__init__ funds rate) cs) in
  (∀ first, head history = Some first → d_daily_return first = Int 0) ∧
  (∀ i a b, history !! i = Some a → history !! S i = Some b →
     (q ← Py.truediv (Flt (d_price b)) (Flt (d_price a)); percent q)
       = Ok (d_daily_return b)).
Proof.
  apply (calls_invariant
           (λ s, (∀ first, head (daily_state s) = Some first →
                    d_daily_return first = Int 0) ∧
                 (∀ i a b, daily_state s !! i = Some a →
                    daily_state s !! S i = Some b →
                    (q ← Py.truediv (Flt (d_price b)) (Flt (d_price a));
                     percent q) = Ok (d_daily_return b)))
           (λ _, True)); [| by apply Forall_true | by split].
  intros s c _ [Hfirst Hnext].
  destruct (is_trade_call c) eqn:Hc; [by rewrite trade_call_daily_state |].
  destruct c as [| | date price]; [done | done |]. cbn [call].
  destruct (record_daily_state s date price) as [[[d c]|e] s'] eqn:Hcall;
    [| by apply record_daily_state_Raise in Hcall as [-> _]].
  apply record_daily_state_Ok in Hcall as (pv & _ & Hdaily & _ & ->).
  cbn [daily_state snd]. unfold daily_return_of in Hdaily.
  destruct (last (daily_state s)) as [prev|] eqn:Hlast.
  - assert (daily_state s ≠ []) as Hne by (intros Hnil; by rewrite Hnil in Hlast).
    rewrite last_lookup in Hlast.
    split.
    + intros first. destruct (daily_state s); [done |]. apply Hfirst.
    + intros i a b Ha Hb.
      destruct (decide (S i < length (daily_state s))%nat) as [Hin|Hout].
      * rewrite lookup_app_l in Ha, Hb by lia. eauto.
      * destruct (decide (S i = length (daily_state s))) as [Heq|Hfar].
        -- rewrite lookup_app_l in Ha by lia.
           rewrite lookup_app_r, <- Heq, Nat.sub_diag in Hb by lia.
           injection Hb as <-. rewrite <- Heq in Hlast. cbn in Hlast.
           assert (a = prev) as -> by congruence. exact Hdaily.
        -- apply lookup_lt_Some in Hb. rewrite length_app in Hb. cbn in Hb. lia.
  - apply last_None in Hlast. rewrite Hlast. injection Hdaily as <-.
    split.
    + by intros first [= <-].
    + intros i a b _ Hb. by destruct i.
Qed.

Lemma daily_returns_chain_witness :
  match daily_state
          (calls (__init__ (Int 100000) three_basis_points)
             [CallRecord "2024-01-02" (np 10);
              CallBuy "2024-01-02" (np 10) 1000 "000001";
              CallRecord "2024-01-03" (np 11)]) with
  | [a; b] =>
      (q ← Py.truediv (Flt (d_price b)) (Flt (d_price a)); percent q)
        = Ok (d_daily_return b) ∧
      d_daily_return b =
        Flt (Float Py.NumPy (S754_finite false 5629499534213125 (-49)))
  | _ => False
  end.
Proof.
  pose proof (daily_returns_chain (Int 100000) three_basis_points
                [CallRecord "2024-01-02" (np 10);
                 CallBuy "2024-01-02" (np 10) 1000 "000001";
                 CallRecord "2024-01-03" (np 11)]) as [_ H].
  destruct (daily_state _) as [|a [|b [|c l]]] eqn:Hhistory;
    [by vm_compute in Hhistory.. | | by vm_compute in Hhistory].
  split; [by apply (H 0%nat a b) |].
  vm_compute in Hhistory. by injection Hhistory as <- <-.
Defined.

(** X20.  [get_current_portfolio_value] gives what the next snapshot
    stores: when [record_daily_state] returns, the portfolio value of
    the snapshot it appended is the value [get_current_portfolio_value]
    gives at that price, before the call and after it. *)
Theorem portfolio_value_is_recorded self date price d c self' :
  record_daily_state self date price = (Ok (d, c), self') →
  ∃ snap,
    last (daily_state self') = Some snap ∧
    d_price snap = price ∧
    get_current_portfolio_value self price = Ok (d_portfolio_value snap) ∧
    get_current_portfolio_value self' price = Ok (d_portfolio_value snap).
Proof.
  intros Hcall.
  apply record_daily_state_Ok in Hcall as (pv & Hpv & _ & _ & ->).
  eexists. cbn [daily_state]. rewrite last_snoc. split; [done |].
  split; [done |]. split; exact Hpv.
Qed.

Lemma portfolio_value_is_recorded_witness :
  get_current_portfolio_value observed_trader (np 10)
    = Ok (Flt (Float Py.NumPy (Py.exact 100000))).
Proof.
  destruct (record_daily_state fresh_trader "2024-01-02" (np 10))
    as [[[d c]|e] self'] eqn:Hcall; [| by vm_compute in Hcall].
  destruct (portfolio_value_is_recorded _ _ _ _ _ _ Hcall)
    as (snap & Hlast & _ & _ & Hafter).
  assert (self' = observed_trader) as ->.
  { unfold observed_trader. cbn [call]. by rewrite Hcall. }
  rewrite Hafter. vm_compute in Hlast. by injection Hlast as <-.
Defined.

Lemma gt_raises a b e : Py.gt a b = Raise e → e = Py.OverflowError.
Proof.
  unfold Py.gt, Py.compare.
  destruct a as [m|x], b as [n|y]; [done | | | done].
  - destruct (Py.kind_of y); [done |].
    destruct (Py.float_of_int m) as [?|e'] eqn:Hm; [done |].
    cbn. intros [= <-]. by apply float_of_int_raises in Hm.
  - destruct (Py.kind_of x); [done |].
    destruct (Py.float_of_int n) as [?|e'] eqn:Hn; [done |].
    cbn. intros [= <-]. by apply float_of_int_raises in Hn.
Qed.

(** X21.  A call that raises changes nothing.  Every exception of
    [buy], [sell] and [record_daily_state] comes before the first
    assignment: the ledger after a call that raised is the ledger
    before it, and [buy] and [sell] raise nothing but
    [OverflowError]. *)
Theorem raising_calls_change_nothing self date price amount stock_code e :
  ((buy self date price amount stock_code).1 = Raise e →
     e = Py.OverflowError ∧ (buy self date price amount stock_code).2 = self) ∧
  ((sell self date price amount stock_code).1 = Raise e →
     e = Py.OverflowError ∧ (sell self date price amount stock_code).2 = self) ∧
  ((record_daily_state self date price).1 = Raise e →
     (record_daily_state self date price).2 = self).
Proof.
  split; [| split].
  - unfold buy.
    pose proof (total_cost_of_cases self price amount) as Hcost.
    destruct (total_cost_of self price amount) as [total_cost|e1];
      [| cbn; intros [= <-]; by destruct Hcost].
    destruct (Py.gt total_cost (capital self)) as [[|]|e2] eqn:Hgt;
      [done | | cbn; intros [= <-]; by apply gt_raises in Hgt].
    destruct (Py.sub (capital self) total_cost) as [?|e3] eqn:Hsub; [done |].
    cbn. intros [= <-]. by apply sub_raises in Hsub as [-> _].
  - unfold sell. destruct (amount >? shares self)%Z; [done |].
    pose proof (total_income_of_cases self price amount) as Hincome.
    destruct (total_income_of self price amount) as [total_income|e1];
      [| cbn; intros [= <-]; by destruct Hincome].
    destruct (Py.add (capital self) total_income) as [?|e3] eqn:Hadd; [done |].
    cbn. intros [= <-]. by apply add_raises in Hadd as [-> _].
  - destruct (record_daily_state self date price) as [res self'] eqn:Hcall.
    cbn. intros ->. by apply record_daily_state_Raise in Hcall as [-> _].
Qed.

Lemma raising_calls_change_nothing_witness :
  (sell hoard_trader "2024-01-04" (py 1) (2 ^ 1024) "000001").2 = hoard_trader.
Proof.
  apply (raising_calls_change_nothing hoard_trader "2024-01-04" (py 1)
           (2 ^ 1024) "000001" Py.OverflowError).
  by vm_compute.
Defined.

End LedgerSessions.

(** * Properties of the day cursor *)

Section CursorFacts.
Local Open Scope Z_scope.

(** Where the stored index lies between [min(499, total_days - 1)] and
    [total_days - 1], the run's local [current_day] is the stored index. *)
Lemma current_day_stored total_days cd :
  Z.min 499 (total_days - 1) ≤ cd ≤ total_days - 1 →
  current_day (visible_window total_days cd) = cd.
Proof. intros H. cursor_cases. Qed.

(** A session that stays on one series keeps the stored index at or
    above [min(499, total_days - 1)] whenever it is within the series. *)
Lemma reachable_lower_bound total_days cd :
  1 ≤ total_days → reachable total_days cd →
  cd ≤ total_days - 1 → Z.min 499 (total_days - 1) ≤ cd.
Proof.
  intros Hdays Hreach. induction Hreach as [| | cd b _ IH]; [cursor_cases.. |].
  revert IH. cursor_cases.
Qed.

(** C6, as the code has it.  From a stored index between
    [min(499, total_days - 1)] and [total_days - 1], each of the three
    buttons stores [min(index + steps, total_days - 1)]: the result is
    never above [total_days - 1], stays in the same range, and at
    [total_days - 1] every button leaves the index as it is.  In that
    range the day a run works on is the stored index, before the button
    and after it. *)
Theorem advance_clamps total_days cd b :
  Z.min 499 (total_days - 1) ≤ cd ≤ total_days - 1 →
  advance total_days cd b = Z.min (cd + steps b) (total_days - 1) ∧
  Z.min 499 (total_days - 1) ≤ advance total_days cd b ≤ total_days - 1 ∧
  (cd = total_days - 1 → advance total_days cd b = cd) ∧
  current_day (visible_window total_days cd) = cd ∧
  current_day (visible_window total_days (advance total_days cd b)) =
    advance total_days cd b.
Proof.
  intros H.
  assert (advance total_days cd b = Z.min (cd + steps b) (total_days - 1))
    as Hnew by cursor_cases.
  assert (Z.min 499 (total_days - 1) ≤ advance total_days cd b ≤ total_days - 1)
    as Hrange by (rewrite Hnew; destruct b; cbn [steps]; lia).
  rewrite !current_day_stored by assumption.
  repeat split; try tauto. intros ->. rewrite Hnew. destruct b; cbn [steps]; lia.
Qed.

Lemma advance_clamps_witness :
  advance 1000 499 OneWeek = 506 ∧ advance 1000 999 OneMonth = 999.
Proof.
  split.
  - pose proof (advance_clamps 1000 499 OneWeek) as (H & _); [lia |].
    rewrite H. reflexivity.
  - pose proof (advance_clamps 1000 999 OneMonth) as (_ & _ & H & _); [lia |].
    apply H. reflexivity.
Defined.

(** C6 as stated fails below the window.  A session that has shown a
    series of 100 bars holds the index 99; on a series of 1000 bars the
    run lifts its local [current_day] to 499, so "前进一周" stores 506 and
    not 106, while "前进一天" stores 100 and the next run shows day 499
    again. *)
Lemma advance_below_window :
  initial_current_day 100 = 99 ∧ 99 ≤ 1000 - 1 ∧
  advance 1000 99 OneWeek = 506 ∧
  advance 1000 99 OneWeek ≠ Z.min (99 + steps OneWeek) (1000 - 1) ∧
  current_day (visible_window 1000 99) = 499 ∧
  current_day (visible_window 1000 (advance 1000 99 OneDay)) = 499 ∧
  current_day (visible_window 1000 (advance 1000 99 OneDay)) ≠
    Z.min (current_day (visible_window 1000 99) + steps OneDay) (1000 - 1).
Proof. by vm_compute. Qed.

(** Where a session on one series keeps the stored index: within the
    series from 499 on when the series has 500 bars or more, and at the
    last bar or at the 499 of the reset button when it is shorter. *)
Lemma reachable_stored total_days cd :
  1 ≤ total_days → reachable total_days cd →
  (500 ≤ total_days → 499 ≤ cd ≤ total_days - 1) ∧
  (total_days < 500 → cd = total_days - 1 ∨ cd = 499).
Proof.
  intros Hdays Hreach.
  induction Hreach as [| | cd b _ IH]; [cursor_cases.. |].
  revert IH. cursor_cases.
Qed.

(** C7.  On a series of at least one bar the window of a run is at most
    500 bars long, starts at [max(0, current_day - 500 + 1)] and ends,
    end excluded, at [current_day + 1], within the series.  In every
    state a session reaches, [current_day] is the stored index when the
    series has 500 bars or more, so the window is the 500 bars that end
    with the stored index and slides with it; on a series of fewer than
    500 bars the window is the whole series and [current_day] is
    [total_days - 1], whatever is stored. *)
Theorem visible_window_bounds total_days cd :
  1 ≤ total_days →
  let w := visible_window total_days cd in
  end_idx w - start_idx w ≤ 500 ∧
  start_idx w = Z.max 0 (current_day w - 500 + 1) ∧
  end_idx w = current_day w + 1 ∧
  0 ≤ start_idx w ∧ end_idx w ≤ total_days ∧
  (total_days < 500 →
     start_idx w = 0 ∧ end_idx w = total_days ∧
     end_idx w - start_idx w = total_days ∧
     current_day w = total_days - 1) ∧
  (reachable total_days cd →
     (500 ≤ total_days →
        current_day w = cd ∧
        start_idx w = Z.max 0 (cd - 500 + 1) ∧
        end_idx w = cd + 1 ∧
        end_idx w - start_idx w = 500) ∧
     (total_days < 500 → cd = total_days - 1 ∨ cd = 499)).
Proof.
  intros H w. subst w.
  assert (reachable total_days cd →
          (500 ≤ total_days → 499 ≤ cd ≤ total_days - 1) ∧
          (total_days < 500 → cd = total_days - 1 ∨ cd = 499)) as Hstored
    by (by apply reachable_stored).
  do 6 (split; [cursor_cases |]).
  intros Hreach. destruct (Hstored Hreach) as [Hlong Hshort].
  split; [| exact Hshort].
  intros Hdays. specialize (Hlong Hdays). clear Hstored Hshort. cursor_cases.
Qed.

Lemma visible_window_bounds_witness :
  visible_window 1000 (advance 1000 (initial_current_day 1000) OneWeek)
    = Window 506 7 507 ∧
  end_idx (visible_window 120 499) - start_idx (visible_window 120 499) = 120.
Proof.
  split.
  - pose proof (visible_window_bounds 1000
                  (advance 1000 (initial_current_day 1000) OneWeek)) as H.
    cbv zeta in H.
    destruct H as (_ & _ & _ & _ & _ & _ & H); [lia |].
    destruct H as [H _]; [apply reachable_advance, reachable_initial |].
    destruct H as (Hday & Hstart & Hend & _); [lia |].
    destruct (visible_window 1000 _) as [day first last]. cbn in *.
    by rewrite Hday, Hstart, Hend.
  - pose proof (visible_window_bounds 120 499) as H. cbv zeta in H.
    destruct H as (_ & _ & _ & _ & _ & H & _); [lia |].
    destruct H as (_ & _ & H & _); [lia | exact H].
Defined.

End CursorFacts.


(** * The day cursor over a whole session *)

Section CursorSessions.
Local Open Scope Z_scope.

(** X14.  Every run has a current bar.  On a series that is not empty
    the window is not empty and holds the run's [current_day], which is
    a valid row of the series: the run records that row's date and
    close, and the branches for "数据已结束" and for an empty chart are
    never taken. *)
Theorem record_run_records_current_bar stock_data cd trader :
  stock_data ≠ [] →
  let total_days := Z.of_nat (length stock_data) in
  let w := visible_window total_days cd in
  0 ≤ start_idx w ≤ current_day w ∧
  current_day w < end_idx w ≤ total_days ∧
  ∃ current_date current_price,
    stock_data !! Z.to_nat (current_day w) = Some (current_date, current_price) ∧
    record_run stock_data cd trader =
      call trader (CallRecord current_date current_price).
Proof.
  intros Hne total_days w.
  assert (1 ≤ total_days) as Hdays.
  { subst total_days. destruct stock_data; [done | cbn; lia]. }
  assert (0 ≤ start_idx w ≤ current_day w ∧
          current_day w < end_idx w ≤ total_days) as Hw.
  { subst w. clearbody total_days. cursor_cases. }
  split; [tauto |]. split; [tauto |].
  destruct (lookup_lt_is_Some_2 stock_data (Z.to_nat (current_day w)))
    as [[current_date current_price] Hrow]; [subst total_days; lia |].
  exists current_date, current_price. split; [done |].
  unfold record_run. fold total_days. fold w. rewrite Hrow.
  destruct (Z.ltb_spec (current_day w) total_days); [done | lia].
Qed.

Lemma record_run_records_current_bar_witness :
  record_run two_bars 499 fresh_trader =
    call fresh_trader (CallRecord "2024-01-03" (np 11)).
Proof.
  pose proof (record_run_records_current_bar two_bars 499 fresh_trader) as H.
  cbv zeta in H.
  destruct H as (_ & _ & current_date & current_price & Hrow & Hrun); [done |].
  rewrite Hrun. vm_compute in Hrow. by injection Hrow as <- <-.
Defined.

(** X15.  No button moves the day backwards.  Whatever index is stored,
    on a series of at least one bar the day shown after a button is at
    least the day shown before, at most [steps] later, and never past
    the last bar; on the last bar every button leaves it there. *)
Theorem advance_never_goes_back total_days cd b :
  1 ≤ total_days →
  let before := current_day (visible_window total_days cd) in
  let after := current_day (visible_window total_days (advance total_days cd b)) in
  before ≤ after ≤ Z.min (before + steps b) (total_days - 1) ∧
  (before = total_days - 1 → after = total_days - 1).
Proof. intros H before after. subst before after. cursor_cases. Qed.

Lemma advance_never_goes_back_witness :
  current_day (visible_window 1000 (advance 1000 99 OneMonth)) = 529.
Proof.
  pose proof (advance_never_goes_back 1000 99 OneMonth) as H.
  cbv zeta in H. destruct H as [_ _]; [lia |]. reflexivity.
Defined.

(** X16.  The reset button and a new session show the same window, for
    every length of the series, although the button stores 499 and a
    new session stores [min(499, total_days - 1)]; and what a run shows
    does not change when its [current_day] is stored back. *)
Theorem reset_shows_initial_window total_days cd :
  visible_window total_days reset_current_day =
    visible_window total_days (initial_current_day total_days) ∧
  visible_window total_days (current_day (visible_window total_days cd)) =
    visible_window total_days cd.
Proof. split; cursor_cases; f_equal; lia. Qed.

(** The formula of [advance] between the bounds, and the bounds kept. *)
Lemma advance_between total_days cd b :
  Z.min 499 (total_days - 1) ≤ cd ≤ total_days - 1 →
  advance total_days cd b = Z.min (cd + steps b) (total_days - 1) ∧
  Z.min 499 (total_days - 1) ≤ advance total_days cd b ≤ total_days - 1.
Proof. intros H. cursor_cases. Qed.

Lemma total_steps_nonneg bs : 0 ≤ total_steps bs.
Proof.
  unfold total_steps. induction bs as [|b bs IH]; cbn [foldr]; [lia |].
  destruct b; cbn [steps]; lia.
Qed.

Lemma advances_between total_days bs : ∀ cd,
  Z.min 499 (total_days - 1) ≤ cd ≤ total_days - 1 →
  advances total_days cd bs = Z.min (cd + total_steps bs) (total_days - 1).
Proof.
  induction bs as [|b bs IH]; intros cd Hcd.
  - cbn. lia.
  - change (advances total_days cd (b :: bs))
      with (advances total_days (advance total_days cd b) bs).
    destruct (advance_between total_days cd b Hcd) as [Hb Hrange].
    rewrite IH by exact Hrange. rewrite Hb.
    pose proof (total_steps_nonneg bs) as Hsum. unfold total_steps in *.
    cbn [foldr]. lia.
Qed.

(** X17.  Buttons add up.  From a stored index between
    [min(499, total_days - 1)] and [total_days - 1], any sequence of
    buttons lands on [min(index + the sum of their steps,
    total_days - 1)]; so seven presses of "前进一天" store what one press
    of "前进一周" stores, and the order of the presses does not matter. *)
Theorem advances_add_up total_days cd bs bs' :
  Z.min 499 (total_days - 1) ≤ cd ≤ total_days - 1 →
  advances total_days cd bs = Z.min (cd + total_steps bs) (total_days - 1) ∧
  advances total_days cd (replicate 7 OneDay) = advance total_days cd OneWeek ∧
  (bs ≡ₚ bs' → advances total_days cd bs = advances total_days cd bs').
Proof.
  intros Hcd. split; [by apply advances_between |]. split.
  - rewrite advances_between by exact Hcd.
    destruct (advance_between total_days cd OneWeek Hcd) as [-> _]. done.
  - intros Hperm. rewrite !advances_between by exact Hcd.
    f_equal. f_equal. unfold total_steps.
    induction Hperm; cbn [foldr]; lia.
Qed.

Lemma advances_add_up_witness :
  advances 1000 499 [OneDay; OneWeek; OneMonth] = 537.
Proof.
  pose proof (advances_add_up 1000 499 [OneDay; OneWeek; OneMonth] []) as [H _];
    [lia |].
  rewrite H. reflexivity.
Defined.

(** X18.  In a session on one series of at least one bar, started fresh
    or by the reset button, the stored index stays between
    [min(499, total_days - 1)] and [max(499, total_days - 1)]; so on a
    series of 500 bars or more it is always the day the run shows. *)
Theorem reachable_range total_days cd :
  1 ≤ total_days → reachable total_days cd →
  Z.min 499 (total_days - 1) ≤ cd ≤ Z.max 499 (total_days - 1) ∧
  (500 ≤ total_days → current_day (visible_window total_days cd) = cd).
Proof.
  intros Hdays Hreach.
  induction Hreach as [| | cd b _ IH]; [cursor_cases.. |].
  revert IH. cursor_cases.
Qed.

Lemma reachable_range_witness :
  current_day (visible_window 1000 (advance 1000 (initial_current_day 1000) OneWeek))
  = advance 1000 (initial_current_day 1000) OneWeek.
Proof.
  apply (reachable_range 1000); [lia | | lia].
  apply reachable_advance, reachable_initial.
Defined.

(** X19.  Below the window "前进一天" stalls.  When the stored index is
    under 499 on a series of more than 500 bars (an index left by a
    shorter series), each press of "前进一天" adds one to the stored index
    while the run keeps showing day 499, until the stored index reaches
    499. *)
Theorem one_day_stalls_below_window total_days (n : nat) : ∀ cd,
  501 ≤ total_days → cd + Z.of_nat n ≤ 499 →
  advances total_days cd (replicate n OneDay) = cd + Z.of_nat n ∧
  current_day
    (visible_window total_days (advances total_days cd (replicate n OneDay)))
  = 499.
Proof.
  induction n as [|n IH]; intros cd Hdays Hcd.
  - cbn [replicate advances foldl]. split; [lia | cursor_cases].
  - change (advances total_days cd (replicate (S n) OneDay))
      with (advances total_days (advance total_days cd OneDay) (replicate n OneDay)).
    assert (advance total_days cd OneDay = cd + 1) as -> by cursor_cases.
    destruct (IH (cd + 1)) as [Hstored Hshown]; [lia | lia |].
    split; [lia | done].
Qed.

Lemma one_day_stalls_below_window_witness :
  advances 1000 99 (replicate 400 OneDay) = 499 ∧
  current_day (visible_window 1000 (advances 1000 99 (replicate 399 OneDay))) = 499.
Proof.
  split.
  - pose proof (one_day_stalls_below_window 1000 400 99) as [H _]; [lia | lia |].
    rewrite H. reflexivity.
  - by pose proof (one_day_stalls_below_window 1000 399 99) as [_ H]; [lia | lia |].
Defined.

End CursorSessions.
